(** * hltv.py: same-day match results scraped from a results page

    A shallow embedding of [src/hltv.py] (the [CounterScrape] class and
    [convert_timestamp]) and the properties of it that the specification
    states.

    Modelling conventions.

    - Python [str] is [string].  A character is a code point in
      U+0000..U+00FF, so the whitespace class of [str.split] and
      [str.strip] is the Latin-1 part of Python's [str.isspace], [int]
      skips that class without U+001C..U+001F, and the only decimal
      digits are ['0'..'9'].
    - Exceptions are values of [exn]; a computation that may raise has type
      [result A].
    - The HTTP session is the one effect of the program.  A computation
      that may issue requests has type [M A]: it takes the log of the URLs
      requested so far and returns its outcome with the extended log.  The
      remote side is a parameter ([network]) that answers a request given
      the earlier ones, so a page may change between two requests.
    - The libraries the program calls ([requests], [bs4], [time], [json])
      are not part of the repository.  The parser, the clock and the remote
      side are parameters of the model; the document queries the program
      uses ([find_all], [select_one], [get_text], item access) and the JSON
      encoder and decoder are written out after their library behaviour.
    - An [OrderedDict] with string keys is an association list without
      repeated keys, in insertion order. *)

From Stdlib Require Import String Ascii List ZArith NArith Lia Bool.
From Stdlib Require Import DecimalString.
Import ListNotations.

Local Open Scope string_scope.
Local Open Scope list_scope.

(** ** Exceptions and the two monads *)

Inductive exn : Type :=
| KeyError (key : string)
| IndexError
| AttributeError
| TypeError
| ValueError (literal : string)
| HTTPError (status : Z)
| ConnectionError
| OverflowError
| JSONDecodeError (msg : string).

Inductive result (A : Type) : Type :=
| Ok (a : A)
| Raise (e : exn).

Arguments Ok {A} a.
Arguments Raise {A} e.

Definition rbind {A B : Type} (c : result A) (k : A -> result B) : result B :=
  match c with
  | Ok a => k a
  | Raise e => Raise e
  end.

(** The request log: the URLs of the GET requests issued so far, oldest
    first. *)
Definition log : Type := list string.

Definition M (A : Type) : Type := log -> result A * log.

Definition ret {A : Type} (a : A) : M A := fun w => (Ok a, w).

Definition bind {A B : Type} (c : M A) (k : A -> M B) : M B :=
  fun w =>
    match c w with
    | (Ok a, w') => k a w'
    | (Raise e, w') => (Raise e, w')
    end.

Definition lift {A : Type} (r : result A) : M A := fun w => (r, w).

Declare Scope result_scope.
Delimit Scope result_scope with res.
Declare Scope io_scope.
Delimit Scope io_scope with io.

Notation "x <- c ;; k" := (rbind c (fun x => k))
  (at level 61, c at next level, right associativity) : result_scope.
Notation "x <- c ;; k" := (bind c (fun x => k))
  (at level 61, c at next level, right associativity) : io_scope.

(** ** Python strings *)

(** The double quote character. *)
Abbreviation quote := ("034"%char) (only parsing).

(** [str.isspace] on one character of U+0000..U+00FF. *)
Definition isspace (c : ascii) : bool :=
  let n := N_of_ascii c in
  ((9 <=? n) && (n <=? 13) || (28 <=? n) && (n <=? 32)
   || (n =? 133) || (n =? 160))%N.

Definition is_empty (s : string) : bool :=
  match s with
  | EmptyString => true
  | String _ _ => false
  end.

(** [s.split()]: the maximal runs of non-whitespace characters, in order.
    [tok] is the run being read. *)
Fixpoint split_from (tok : string) (s : string) : list string :=
  match s with
  | EmptyString => if is_empty tok then [] else [tok]
  | String c s' =>
      if isspace c
      then (if is_empty tok then [] else [tok]) ++ split_from "" s'
      else split_from (tok ++ String c "") s'
  end.

Definition split (s : string) : list string := split_from "" s.

(** [s.lstrip()], [s.rstrip()] and [s.strip()]. *)
Fixpoint lstrip (s : string) : string :=
  match s with
  | EmptyString => ""
  | String c s' => if isspace c then lstrip s' else s
  end.

Fixpoint rstrip (s : string) : string :=
  match s with
  | EmptyString => ""
  | String c s' =>
      let r := rstrip s' in
      if is_empty r && isspace c then "" else String c r
  end.

Definition strip (s : string) : string := rstrip (lstrip s).

(** [sub in s] for two strings. *)
Fixpoint contains (sub s : string) : bool :=
  prefix sub s ||
  match s with
  | EmptyString => false
  | String _ s' => contains sub s'
  end.

(** [sep.join(l)]. *)
Fixpoint join (sep : string) (l : list string) : string :=
  match l with
  | [] => ""
  | [x] => x
  | x :: l' => x ++ sep ++ join sep l'
  end.

(** [l[:n]] for an integer [n]: a negative bound counts from the end. *)
Definition slice_to {A : Type} (l : list A) (n : Z) : list A :=
  if (0 <=? n)%Z then firstn (Z.to_nat n) l
  else firstn (length l - Z.to_nat (- n)) l.

(** [l[0]] and [l[-1]]. *)
Definition item_first {A : Type} (l : list A) : result A :=
  match l with
  | [] => Raise IndexError
  | x :: _ => Ok x
  end.

Definition item_last {A : Type} (l : list A) : result A :=
  match l with
  | [] => Raise IndexError
  | x :: l' => Ok (last l' x)
  end.

(** *** [int(s)] *)

(** The whitespace that [int] skips around a literal: the characters of
    [str.isspace] without the four separators U+001C..U+001F, which [int]
    rejects. *)
Definition isspace_int (c : ascii) : bool :=
  let n := N_of_ascii c in
  ((9 <=? n) && (n <=? 13) || (n =? 32) || (n =? 133) || (n =? 160))%N.

Fixpoint lstrip_int (s : string) : string :=
  match s with
  | EmptyString => ""
  | String c s' => if isspace_int c then lstrip_int s' else s
  end.

Fixpoint rstrip_int (s : string) : string :=
  match s with
  | EmptyString => ""
  | String c s' =>
      let r := rstrip_int s' in
      if is_empty r && isspace_int c then "" else String c r
  end.

Definition strip_int (s : string) : string := rstrip_int (lstrip_int s).

Definition digit_value (c : ascii) : option Z :=
  let n := N_of_ascii c in
  if ((48 <=? n) && (n <=? 57))%N then Some (Z.of_N n - 48)%Z else None.

(** The digits of a literal after its sign: decimal digits, with single
    underscores allowed between two digits.  [acc] is the value read so
    far, [prev] tells whether the previous character was a digit. *)
Fixpoint int_digits (acc : Z) (prev : bool) (s : string) : option Z :=
  match s with
  | EmptyString => if prev then Some acc else None
  | String c s' =>
      match digit_value c with
      | Some d => int_digits (10 * acc + d) true s'
      | None =>
          if (N_of_ascii c =? 95)%N && prev then int_digits acc false s'
          else None
      end
  end.

Definition int_literal (s : string) : option Z :=
  match strip_int s with
  | String "+" s' => int_digits 0 false s'
  | String "-" s' => option_map Z.opp (int_digits 0 false s')
  | s' => int_digits 0 false s'
  end.

Definition int (s : string) : result Z :=
  match int_literal s with
  | Some z => Ok z
  | None => Raise (ValueError s)
  end.


(** ** Ordered dictionaries with string keys *)

Definition odict (V : Type) : Type := list (string * V).

Fixpoint lookup {V : Type} (k : string) (d : odict V) : option V :=
  match d with
  | [] => None
  | (k', v) :: d' => if String.eqb k' k then Some v else lookup k d'
  end.

(** [d[k] = v]: an existing key keeps its place and takes the new value,
    a new key goes to the end. *)
Fixpoint setitem {V : Type} (k : string) (v : V) (d : odict V) : odict V :=
  match d with
  | [] => [(k, v)]
  | (k', v') :: d' =>
      if String.eqb k' k then (k', v) :: d' else (k', v') :: setitem k v d'
  end.

Definition keys {V : Type} (d : odict V) : list string := map fst d.

Definition insert_entry {V : Type} (d : odict V) (kv : string * V) : odict V :=
  setitem (fst kv) (snd kv) d.

(** [OrderedDict(pairs)]. *)
Definition odict_of_pairs {V : Type} (pairs : list (string * V)) : odict V :=
  fold_left insert_entry pairs [].

(** ** Documents

    A parsed document is a tree of tags and strings.  An attribute is kept
    as the string written in the markup; the multi-valued [class] attribute
    is presented to the program as the list of its whitespace-separated
    values, as the HTML tree builders do. *)

#[warnings="-register-all"]
Inductive node : Type :=
| NavigableString (s : string)
| Tag (name : string) (attrs : odict string) (contents : list node).

Fixpoint self_and_descendants (n : node) : list node :=
  match n with
  | NavigableString _ => [n]
  | Tag _ _ contents => n :: flat_map self_and_descendants contents
  end.

(** [tag.descendants]: every node below [tag], in document order. *)
Definition descendants (n : node) : list node :=
  match n with
  | NavigableString _ => []
  | Tag _ _ contents => flat_map self_and_descendants contents
  end.

Definition is_tag (n : node) : bool :=
  match n with
  | NavigableString _ => false
  | Tag _ _ _ => true
  end.

Definition tag_name (n : node) : option string :=
  match n with
  | NavigableString _ => None
  | Tag name _ _ => Some name
  end.

Definition tag_attrs (n : node) : odict string :=
  match n with
  | NavigableString _ => []
  | Tag _ attrs _ => attrs
  end.

(** [tag[key]] for a single-valued attribute. *)
Definition getitem (n : node) (key : string) : result string :=
  match lookup key (tag_attrs n) with
  | Some v => Ok v
  | None => Raise (KeyError key)
  end.

(** [tag.get('class', [])]. *)
Definition get_class (n : node) : list string :=
  match lookup "class" (tag_attrs n) with
  | Some v => split v
  | None => []
  end.

(** [x in l] for a list of strings. *)
Definition mem (x : string) (l : list string) : bool :=
  existsb (String.eqb x) l.

Definition has_class (cls : string) (n : node) : bool :=
  is_tag n && mem cls (get_class n).

Definition name_is (name : string) (n : node) : bool :=
  match tag_name n with
  | Some name' => String.eqb name' name
  | None => false
  end.

(** [tag(f)], that is [tag.find_all(f)], for a function [f]: the tags
    below [tag] on which [f] is true, in document order.  [f] is called on
    every tag in turn, and the first exception it raises ends the search.
    [l] is the list of nodes still to visit. *)
Fixpoint find_all_matching (f : node -> result bool) (l : list node)
  : result (list node) :=
  match l with
  | [] => Ok []
  | n :: l' =>
      if is_tag n then
        (b <- f n ;;
         found <- find_all_matching f l' ;;
         Ok (if b then n :: found else found))%res
      else find_all_matching f l'
  end.

Definition find_all_fn (f : node -> result bool) (n : node)
  : result (list node) :=
  find_all_matching f (descendants n).

(** [tag(name, cls)], that is [tag.find_all(name, class_=cls)]. *)
Definition find_all (name cls : string) (n : node) : list node :=
  filter (fun d => name_is name d && has_class cls d) (descendants n).

(** [tag.select_one('.cls')]: the first tag below [tag] with class [cls],
    or [None]. *)
Definition select_one (cls : string) (n : node) : option node :=
  find (has_class cls) (descendants n).

Definition strings (n : node) : list string :=
  flat_map (fun d => match d with
                     | NavigableString s => [s]
                     | Tag _ _ _ => []
                     end) (self_and_descendants n).

(** [tag.get_text()] and [tag.get_text(strip=True)]. *)
Definition get_text (n : node) : string := String.concat "" (strings n).

Definition get_text_strip (n : node) : string :=
  String.concat ""
    (filter (fun s => negb (is_empty s)) (map strip (strings n))).

(** [x.get_text()] where [x] is the result of [select_one]: [None] has no
    attribute [get_text]. *)
Definition text_of (strip_text : bool) (x : option node) : result string :=
  match x with
  | Some n => Ok (if strip_text then get_text_strip n else get_text n)
  | None => Raise AttributeError
  end.

(** [x[key]] where [x] is the result of [select_one]: [None] is not
    subscriptable. *)
Definition item_of (x : option node) (key : string) : result string :=
  match x with
  | Some n => getitem n key
  | None => Raise TypeError
  end.

(** ** The program *)

Record response : Type := { status_code : Z; text : string }.

(** [response.raise_for_status()]. *)
Definition raise_for_status (r : response) : result unit :=
  if ((400 <=? status_code r) && (status_code r <? 600))%Z
  then Raise (HTTPError (status_code r))
  else Ok tt.

Record MatchRecord : Type := {
  team_one : string;
  team_one_score : string;
  team_two : string;
  team_two_score : string;
  event : string;
  maps : string
}.

(** The items of the dictionary that a record stands for, in the order of
    the dictionary display in [get_results]. *)
Definition items (r : MatchRecord) : odict string :=
  [("team_one", team_one r);
   ("team_one_score", team_one_score r);
   ("team_two", team_two r);
   ("team_two_score", team_two_score r);
   ("event", event r);
   ("maps", maps r)].

Record CounterScrape : Type := {
  current_date : string;
  url : string
}.

Definition MAPS : odict string :=
  [("mrg", "Mirage");
   ("trn", "Train");
   ("ovp", "Overpass");
   ("inf", "Inferno");
   ("cch", "Cache");
   ("cbl", "Cobblestone");
   ("nuke", "Nuke");
   ("bo2", "Best-of-two ");
   ("bo3", "Best-of-three ");
   ("bo5", "Best-of-five ");
   ("-", "Default win")].

(** [d[k]] for reading. *)
Definition subscript {V : Type} (d : odict V) (k : string) : result V :=
  match lookup k d with
  | Some v => Ok v
  | None => Raise (KeyError k)
  end.

Section Program.

(** The remote side: the answer to a GET request for a URL, given the
    requests made before it. *)
Variable network : log -> string -> result response.

(** [BeautifulSoup(source, 'lxml', parse_only=SoupStrainer(class_=tag))]
    as a function of [source] and [tag]. *)
Variable BeautifulSoup : string -> string -> node.

(** [strftime('%d %B %Y', localtime(n / 1000))] as a function of the
    integer [n], in the time zone and locale of the process. *)
Variable local_day : Z -> result string.

Definition convert_timestamp (timestamp : string) : result string :=
  (n <- int timestamp ;; local_day n)%res.

(** [self.session.get(url)]. *)
Definition session_get (url : string) : M response :=
  fun w => (network w url, w ++ [url]).

Definition scrape (url tag : string) : M node :=
  (response <- session_get url ;;
   _ <- lift (raise_for_status response) ;;
   ret (BeautifulSoup (text response) tag))%io.

Definition get_maps (self : CounterScrape) (href : string) (maps_played : Z)
  : M string :=
  (soup <- scrape (url self ++ href) "mapname" ;;
   let maps := map get_text (find_all "div" "mapname" soup) in
   ret (join " " (slice_to maps maps_played)))%io.

Definition is_result_con (tag : node) : bool :=
  name_is "div" tag && mem "result-con" (get_class tag).

Definition check_match_date (self : CounterScrape) (tag : node)
  : result bool :=
  let result := is_result_con tag in
  if negb result then Ok false
  else
    (timestamp <- getitem tag "data-zonedgrouping-entry-unix" ;;
     day <- convert_timestamp timestamp ;;
     Ok (String.eqb day (current_date self)))%res.

(** The body of the loop of [get_results] up to the dictionary display:
    the key and the record of one retained node. *)
Definition match_record (self : CounterScrape) (result : node)
  : M (string * MatchRecord) :=
  (timestamp <- lift (getitem result "data-zonedgrouping-entry-unix") ;;
   team_one <- lift (text_of true (select_one "team1" result)) ;;
   team_two <- lift (text_of true (select_one "team2" result)) ;;
   blob <- lift (text_of false (select_one "result-score" result)) ;;
   let score := split blob in
   team_one_score <- lift (item_first score) ;;
   team_two_score <- lift (item_last score) ;;
   event <- lift (text_of false (select_one "event-name" result)) ;;
   maps <- lift (text_of false (select_one "map-text" result)) ;;
   maps <- (if contains "bo" maps then
              (href <- lift (item_of (select_one "a-reset" result) "href") ;;
               a <- lift (int team_one_score) ;;
               b <- lift (int team_two_score) ;;
               let game_score := (a + b)%Z in
               get_maps self href game_score)
            else lift (subscript MAPS maps)) ;;
   ret (timestamp,
        {| team_one := team_one;
           team_one_score := team_one_score;
           team_two := team_two;
           team_two_score := team_two_score;
           event := event;
           maps := maps |}))%io.

(** The loop of [get_results]: [match_results] is the dictionary so far,
    [retained] the nodes still to process. *)
Fixpoint collect (self : CounterScrape) (match_results : odict MatchRecord)
    (retained : list node) : M (odict MatchRecord) :=
  match retained with
  | [] => ret match_results
  | result :: retained' =>
      (entry <- match_record self result ;;
       collect self (setitem (fst entry) (snd entry) match_results)
         retained')%io
  end.

(** [get_results] before serialization: the dictionary [match_results]
    at the [return]. *)
Definition match_results (self : CounterScrape) : M (odict MatchRecord) :=
  (soup <- scrape (url self ++ "/results") "result-con" ;;
   retained <- lift (find_all_fn (check_match_date self) soup) ;;
   collect self [] retained)%io.

End Program.

(** ** JSON text

    The values that [get_results] serializes are dictionaries with string
    keys whose values are strings or such dictionaries again; [json] is
    that fragment.  [dumps] is [json.dumps(o, indent=4, separators=(',',
    ':'))] and [loads] is [json.loads(s, object_pairs_hook=OrderedDict)]
    on it.  Where the decoder meets a JSON value of another form (array,
    number, literal name) or an escape for a character beyond U+00FF, the
    model stops with [Unmodelled]. *)

#[warnings="-register-all"]
Inductive json : Type :=
| JString (s : string)
| JObject (members : odict json).

Definition hex_digit (n : N) : ascii :=
  ascii_of_N (if (n <? 10)%N then 48 + n else 87 + n).

(** One character of a string literal under [ensure_ascii]: the printable
    ASCII characters other than the quote and the backslash stand for
    themselves, the others are escaped. *)
Definition escape_char (c : ascii) : string :=
  let n := N_of_ascii c in
  if (n =? 34)%N then (String "\" (String quote ""))
  else if (n =? 92)%N then "\\"
  else if (n =? 10)%N then "\n"
  else if (n =? 13)%N then "\r"
  else if (n =? 9)%N then "\t"
  else if (n =? 8)%N then "\b"
  else if (n =? 12)%N then "\f"
  else if ((32 <=? n) && (n <=? 126))%N then String c ""
  else ("\u00"
        ++ String (hex_digit (n / 16))
             (String (hex_digit (n mod 16)) ""))%string.

Fixpoint escape (s : string) : string :=
  match s with
  | EmptyString => ""
  | String c s' => escape_char c ++ escape s'
  end.

Definition encode_basestring_ascii (s : string) : string :=
  String quote (escape s ++ String quote "").

Fixpoint indentation (level : nat) : string :=
  match level with
  | O => ""
  | S level' => "    " ++ indentation level'
  end.

Definition newline_indent (level : nat) : string :=
  String "010" (indentation level).

(** The encoder at nesting depth [level]. *)
Fixpoint iterencode (level : nat) (o : json) : string :=
  match o with
  | JString s => encode_basestring_ascii s
  | JObject [] => "{}"
  | JObject members =>
      ("{" ++ newline_indent (S level)
       ++ join ("," ++ newline_indent (S level))
            (map (fun kv =>
                    encode_basestring_ascii (fst kv) ++ ":"
                    ++ iterencode (S level) (snd kv)) members)
       ++ newline_indent level ++ "}")%string
  end.

Definition dumps (o : json) : string := iterencode 0 o.

(** The decoder's whitespace: space, tab, line feed, carriage return. *)
Definition is_ws (c : ascii) : bool :=
  let n := N_of_ascii c in
  ((n =? 32) || (n =? 9) || (n =? 10) || (n =? 13))%N.

Fixpoint skip_ws (s : string) : string :=
  match s with
  | EmptyString => ""
  | String c s' => if is_ws c then skip_ws s' else s
  end.

Definition hex_value (c : ascii) : option N :=
  let n := N_of_ascii c in
  if ((48 <=? n) && (n <=? 57))%N then Some (n - 48)%N
  else if ((97 <=? n) && (n <=? 102))%N then Some (n - 87)%N
  else if ((65 <=? n) && (n <=? 70))%N then Some (n - 55)%N
  else None.

Definition decode_uXXXX (h1 h2 h3 h4 : ascii) : option N :=
  match hex_value h1, hex_value h2, hex_value h3, hex_value h4 with
  | Some a, Some b, Some c, Some d => Some (((a * 16 + b) * 16 + c) * 16 + d)%N
  | _, _, _, _ => None
  end.

(** The character that a one-letter escape stands for. *)
Definition BACKSLASH (esc : ascii) : option ascii :=
  let n := N_of_ascii esc in
  if (n =? 34)%N then Some quote
  else if (n =? 92)%N then Some "\"%char
  else if (n =? 47)%N then Some "/"%char
  else if (n =? 98)%N then Some "008"%char
  else if (n =? 102)%N then Some "012"%char
  else if (n =? 110)%N then Some "010"%char
  else if (n =? 114)%N then Some "013"%char
  else if (n =? 116)%N then Some "009"%char
  else None.

Definition Unmodelled (what : string) : exn :=
  JSONDecodeError ("outside the modelled fragment: " ++ what).

Definition push (c : ascii) (r : string * string) : string * string :=
  (String c (fst r), snd r).

(** [scanstring]: [s] is the text after the opening quote; the result is
    the decoded string and the text after the closing quote. *)
Fixpoint scanstring (s : string) : result (string * string) :=
  match s with
  | EmptyString => Raise (JSONDecodeError "Unterminated string")
  | String c s' =>
      if (N_of_ascii c =? 34)%N then Ok ("", s')
      else if (N_of_ascii c =? 92)%N then
        match s' with
        | EmptyString => Raise (JSONDecodeError "Unterminated string")
        | String esc s'' =>
            if (N_of_ascii esc =? 117)%N then
              match s'' with
              | String h1 (String h2 (String h3 (String h4 s3))) =>
                  match decode_uXXXX h1 h2 h3 h4 with
                  | Some uni =>
                      if (uni <? 256)%N
                      then (r <- scanstring s3 ;;
                            Ok (push (ascii_of_N uni) r))%res
                      else Raise (Unmodelled "character beyond U+00FF")
                  | None => Raise (JSONDecodeError "Invalid \uXXXX escape")
                  end
              | _ => Raise (JSONDecodeError "Invalid \uXXXX escape")
              end
            else
              match BACKSLASH esc with
              | Some char => (r <- scanstring s'' ;; Ok (push char r))%res
              | None => Raise (JSONDecodeError "Invalid \escape")
              end
        end
      else if (N_of_ascii c <? 32)%N then
        Raise (JSONDecodeError "Invalid control character")
      else (r <- scanstring s' ;; Ok (push c r))%res
  end.

(** [scan_once] reads one value and [JSONObject] the members of an object
    after its first opening quote; both return the value with the text
    that follows it.  [pairs] are the members read so far.  The depth of
    the calls is bounded by [fuel]; the decoder raises [RecursionError]
    where the model runs out of it. *)
Definition RecursionError : exn :=
  JSONDecodeError "maximum recursion depth exceeded".

Fixpoint scan_once (fuel : nat) (s : string) : result (json * string) :=
  match fuel with
  | O => Raise RecursionError
  | S fuel' =>
      match s with
      | EmptyString => Raise (JSONDecodeError "Expecting value")
      | String c s' =>
          if (N_of_ascii c =? 34)%N then
            (r <- scanstring s' ;; Ok (JString (fst r), snd r))%res
          else if (N_of_ascii c =? 123)%N then
            match skip_ws s' with
            | String c1 s1 =>
                if (N_of_ascii c1 =? 125)%N
                then Ok (JObject (odict_of_pairs []), s1)
                else if (N_of_ascii c1 =? 34)%N
                then JSONObject fuel' [] s1
                else Raise (JSONDecodeError
                       "Expecting property name enclosed in double quotes")
            | EmptyString =>
                Raise (JSONDecodeError
                  "Expecting property name enclosed in double quotes")
            end
          else if mem (String c "") ["["; "-"; "0"; "1"; "2"; "3"; "4"; "5";
                                     "6"; "7"; "8"; "9"; "t"; "f"; "n"; "N";
                                     "I"]
          then Raise (Unmodelled "value that is not a string or an object")
          else Raise (JSONDecodeError "Expecting value")
      end
  end

with JSONObject (fuel : nat) (pairs : list (string * json)) (s : string)
  : result (json * string) :=
  match fuel with
  | O => Raise RecursionError
  | S fuel' =>
      (k <- scanstring s ;;
       match skip_ws (snd k) with
       | String c s1 =>
           if (N_of_ascii c =? 58)%N then
             (v <- scan_once fuel' (skip_ws s1) ;;
              let pairs' := pairs ++ [(fst k, fst v)] in
              match skip_ws (snd v) with
              | String c2 s2 =>
                  if (N_of_ascii c2 =? 125)%N
                  then Ok (JObject (odict_of_pairs pairs'), s2)
                  else if (N_of_ascii c2 =? 44)%N then
                    match skip_ws s2 with
                    | String c3 s3 =>
                        if (N_of_ascii c3 =? 34)%N
                        then JSONObject fuel' pairs' s3
                        else Raise (JSONDecodeError
                          "Expecting property name enclosed in double quotes")
                    | EmptyString =>
                        Raise (JSONDecodeError
                          "Expecting property name enclosed in double quotes")
                    end
                  else Raise (JSONDecodeError "Expecting ',' delimiter")
              | EmptyString => Raise (JSONDecodeError "Expecting ',' delimiter")
              end)
           else Raise (JSONDecodeError "Expecting ':' delimiter")
       | EmptyString => Raise (JSONDecodeError "Expecting ':' delimiter")
       end)%res
  end.

Definition loads (s : string) : result json :=
  let s0 := skip_ws s in
  (r <- scan_once (S (String.length s0)) s0 ;;
   if is_empty (skip_ws (snd r)) then Ok (fst r)
   else Raise (JSONDecodeError "Extra data"))%res.

(** The dictionary of dictionaries that [json.dumps] is given. *)
Definition to_json (d : odict MatchRecord) : json :=
  JObject (map (fun kv =>
                  (fst kv,
                   JObject (map (fun fv => (fst fv, JString (snd fv)))
                              (items (snd kv))))) d).

(** The value that the decoder builds from the text of [v]: every object
    goes through [OrderedDict(pairs)]. *)
Fixpoint as_dict (v : json) : json :=
  match v with
  | JString s => JString s
  | JObject members =>
      JObject (odict_of_pairs
                 (map (fun kv => (fst kv, as_dict (snd kv))) members))
  end.

(** The text of the members of an object from the first key on, after its
    opening quote, followed by the end of the object and by [tail]. *)
Fixpoint members_tail (level : nat) (members : odict json) (tail : string)
  : string :=
  match members with
  | [] => tail
  | kv :: members' =>
      (escape (fst kv) ++ String quote "" ++ ":"
       ++ iterencode (S level) (snd kv)
       ++ match members' with
          | [] => newline_indent level ++ "}" ++ tail
          | _ :: _ =>
              "," ++ newline_indent (S level)
              ++ String quote (members_tail level members' tail)
          end)%string
  end.

(** The number of values in a value, a bound on the depth of the decoder's
    calls on its text. *)
Fixpoint weight (v : json) : nat :=
  match v with
  | JString _ => 1
  | JObject members =>
      S (fold_right (fun kv n => S (weight (snd kv) + n)) 0 members)
  end.

Definition weight_members (members : odict json) : nat :=
  fold_right (fun kv n => S (weight (snd kv) + n)) 0 members.

(** The decoder reads the text of [x] back, at any depth and before any
    text, given fuel for its weight. *)
Definition decodes (x : json) : Prop :=
  forall level fuel tail,
    weight x <= fuel ->
    scan_once fuel (iterencode level x ++ tail) = Ok (as_dict x, tail).

Section Serialization.

Variable network : log -> string -> result response.
Variable BeautifulSoup : string -> string -> node.
Variable local_day : Z -> result string.

Definition get_results (self : CounterScrape) : M string :=
  (match_results <- match_results network BeautifulSoup local_day self ;;
   ret (dumps (to_json match_results)))%io.

Definition results_dict (self : CounterScrape) : M json :=
  (s <- get_results self ;; lift (loads s))%io.

End Serialization.

(** ** The specification's vocabulary *)

Definition TIMESTAMP : string := "data-zonedgrouping-entry-unix".

(** The timestamp attribute of a node, empty when it has none. *)
Definition timestamp_of (n : node) : string :=
  match lookup TIMESTAMP (tag_attrs n) with
  | Some v => v
  | None => ""
  end.

(** [isTodayMatch] in the specification's words: the node is a result
    container and its timestamp, converted to a day, is the captured
    date. *)
Definition is_today_match (local_day : Z -> result string)
    (self : CounterScrape) (n : node) : bool :=
  is_result_con n &&
  match getitem n TIMESTAMP with
  | Ok timestamp =>
      match convert_timestamp local_day timestamp with
      | Ok day => String.eqb day (current_date self)
      | Raise _ => false
      end
  | Raise _ => false
  end.

(** The result-container nodes of a document whose timestamp falls on the
    captured date, in document order. *)
Definition today_nodes (local_day : Z -> result string)
    (self : CounterScrape) (soup : node) : list node :=
  filter (is_today_match local_day self) (descendants soup).

(** The map entries of a detail page, in document order. *)
Definition map_entries (soup : node) : list string :=
  map get_text (find_all "div" "mapname" soup).

(** The keys of a sequence of insertions, each at its first occurrence. *)
Definition add_key (ks : list string) (k : string) : list string :=
  if mem k ks then ks else ks ++ [k].

Definition distinct (ks : list string) : list string :=
  fold_left add_key ks [].

(** The value inserted last under a key. *)
Definition lookup_last {V : Type} (k : string) (entries : list (string * V))
  : option V :=
  lookup k (rev entries).

Definition all_space (s : string) : bool :=
  forallb isspace (list_ascii_of_string s).

Definition no_space (s : string) : bool :=
  forallb (fun c => negb (isspace c)) (list_ascii_of_string s).

(** A whitespace-delimited token: not empty, without whitespace. *)
Definition is_token (s : string) : bool := negb (is_empty s) && no_space s.

Definition starts_with_space (s : string) : bool :=
  match s with
  | EmptyString => true
  | String c _ => isspace c
  end.

(** [tok] is the first whitespace-delimited token of [blob]: only
    whitespace precedes it, and it ends at the end of the text or at a
    whitespace character. *)
Definition first_token (blob tok : string) : Prop :=
  exists pre rest,
    blob = (pre ++ tok ++ rest)%string /\ all_space pre = true /\
    is_token tok = true /\ starts_with_space rest = true.

(** [tok] is the last whitespace-delimited token of [blob]: only
    whitespace follows it, and it begins at the beginning of the text or
    after a whitespace character. *)
Definition last_token (blob tok : string) : Prop :=
  exists rest post,
    blob = (rest ++ tok ++ post)%string /\ all_space post = true /\
    is_token tok = true /\
    (rest = "" \/ exists rest' c,
        rest = (rest' ++ String c "")%string /\ isspace c = true).

Section Entries.

Variable network : log -> string -> result response.
Variable BeautifulSoup : string -> string -> node.

(** The last step of [match_record]: the maps field, from the raw maps
    text [m] and the two score tokens. *)
Definition maps_field (self : CounterScrape) (result : node)
    (s1 s2 m : string) : M string :=
  if contains "bo" m then
    (href <- lift (item_of (select_one "a-reset" result) "href") ;;
     a <- lift (int s1) ;;
     b <- lift (int s2) ;;
     get_maps network BeautifulSoup self href (a + b))%io
  else lift (subscript MAPS m).

(** The records of the retained nodes in order, before they are put in the
    dictionary. *)
Fixpoint entries (self : CounterScrape) (retained : list node)
  : M (list (string * MatchRecord)) :=
  match retained with
  | [] => ret []
  | result :: retained' =>
      (entry <- match_record network BeautifulSoup self result ;;
       rest <- entries self retained' ;;
       ret (entry :: rest))%io
  end.

End Entries.

(** ** Console output

    [pprint] prints lines.  What a run has printed is the list of the
    arguments of its [print] calls, in order; a run that raises keeps what
    it printed before. *)

Fixpoint spaces (n : nat) : string :=
  match n with
  | O => ""
  | S n' => String " " (spaces n')
  end.

(** The alignments of the format specifications [<], [>] and [^]. *)
Inductive alignment : Type :=
| AlignLeft
| AlignRight
| AlignCenter.

(** [format(s, spec)] for a string [s] and a specification of an
    alignment and a width, as in ['{:^20}'.format(s)]: the padding is of
    spaces, a centred text has the smaller half of it on its left, and a
    text wider than the field is left as it is. *)
Definition format_str (align : alignment) (width : nat) (s : string)
  : string :=
  let pad := width - String.length s in
  match align with
  | AlignLeft => (s ++ spaces pad)%string
  | AlignRight => (spaces pad ++ s)%string
  | AlignCenter =>
      (spaces (Nat.div pad 2) ++ s ++ spaces (pad - Nat.div pad 2))%string
  end.

(** The same for a value of a decoded dictionary: a dictionary does not
    take such a specification. *)
Definition format_value (align : alignment) (width : nat) (v : json)
  : result string :=
  match v with
  | JString s => Ok (format_str align width s)
  | JObject _ => Raise TypeError
  end.

(** One replacement field [{name:spec}] of a [format] call whose keyword
    arguments are the items of [kwargs]. *)
Definition format_field (kwargs : odict json) (name : string)
    (align : alignment) (width : nat) : result string :=
  (v <- subscript kwargs name ;; format_value align width v)%res.

(** The [format] call of [pprint], with the items of [match] as keyword
    arguments, on the template ['{team_one:^20} {team_one_score:<2} -
    {team_two_score:>2} {team_two:^20} {maps:<13}']. *)
Definition format_match (match_ : json) : result string :=
  match match_ with
  | JString _ => Raise TypeError
  | JObject kwargs =>
      (one <- format_field kwargs "team_one" AlignCenter 20 ;;
       one_score <- format_field kwargs "team_one_score" AlignLeft 2 ;;
       two_score <- format_field kwargs "team_two_score" AlignRight 2 ;;
       two <- format_field kwargs "team_two" AlignCenter 20 ;;
       maps <- format_field kwargs "maps" AlignLeft 13 ;;
       Ok (one ++ " " ++ one_score ++ " - " ++ two_score ++ " " ++ two
           ++ " " ++ maps)%string)%res
  end.

(** The loop of [pprint] over [results.values()]: the outcome and the
    lines printed. *)
Fixpoint print_matches (values : list json) : result unit * list string :=
  match values with
  | [] => (Ok tt, [])
  | match_ :: values' =>
      match format_match match_ with
      | Ok line =>
          let (outcome, printed) := print_matches values' in
          (outcome, line :: printed)
      | Raise e => (Raise e, [])
      end
  end.

Definition no_results_line (self : CounterScrape) : string :=
  ("No match results for " ++ current_date self)%string.

Definition summary_line (self : CounterScrape) : string :=
  String "010" ("CS:GO match results for " ++ current_date self).

Definition powered_line : string := "Powered by HLTV.org".

(** [__init__], given the day that [strftime('%d %B %Y')] returns at the
    time of the call. *)
Definition init (today : string) : CounterScrape :=
  {| current_date := today; url := "https://www.hltv.org" |}.

(** [__str__]. *)
Definition str (self : CounterScrape) : string := "CounterScrape".

Section Console.

Variable network : log -> string -> result response.
Variable BeautifulSoup : string -> string -> node.
Variable local_day : Z -> result string.

(** [pprint]: the outcome with the lines printed, and the request log. *)
Definition pprint (self : CounterScrape)
  : log -> (result unit * list string) * log :=
  fun w =>
    match results_dict network BeautifulSoup local_day self w with
    | (Raise e, w') => ((Raise e, []), w')
    | (Ok results, w') =>
        match results with
        | JObject [] | JString EmptyString =>
            ((Ok tt, [no_results_line self; powered_line]), w')
        | JString _ => ((Raise AttributeError, []), w')
        | JObject members =>
            match print_matches (map snd members) with
            | (Ok _, printed) =>
                ((Ok tt, printed ++ [summary_line self; powered_line]), w')
            | (Raise e, printed) => ((Raise e, printed), w')
            end
        end
    end.

(** The script: [cs = CounterScrape(); cs.pprint()]. *)
Definition main (today : string)
  : log -> (result unit * list string) * log :=
  pprint (init today).

End Console.

(** ** More of the specification's vocabulary *)

(** The line that [pprint] prints for a record. *)
Definition record_line (r : MatchRecord) : string :=
  (format_str AlignCenter 20 (team_one r) ++ " "
   ++ format_str AlignLeft 2 (team_one_score r) ++ " - "
   ++ format_str AlignRight 2 (team_two_score r) ++ " "
   ++ format_str AlignCenter 20 (team_two r) ++ " "
   ++ format_str AlignLeft 13 (maps r))%string.


(** The node is a series: its raw maps text contains [bo]. *)
Definition is_series (n : node) : bool :=
  match text_of false (select_one "map-text" n) with
  | Ok m => contains "bo" m
  | Raise _ => false
  end.

(** The URL of the detail page that a node links to. *)
Definition detail_url (self : CounterScrape) (n : node) : string :=
  match item_of (select_one "a-reset" n) "href" with
  | Ok href => (url self ++ href)%string
  | Raise _ => url self
  end.

(** The node has a timestamp attribute that is an integer literal for
    which the clock gives a day. *)
Definition is_dated (local_day : Z -> result string) (n : node) : bool :=
  match lookup TIMESTAMP (tag_attrs n) with
  | Some ts =>
      match int_literal ts with
      | Some z =>
          match local_day z with
          | Ok _ => true
          | Raise _ => false
          end
      | None => false
      end
  | None => false
  end.

(** A character of printable ASCII, or a line feed. *)
Definition plain (c : ascii) : bool :=
  let n := N_of_ascii c in
  ((32 <=? n) && (n <=? 126) || (n =? 10))%N.

Definition all_plain (s : string) : bool :=
  forallb plain (list_ascii_of_string s).

(** ** A concrete environment

    A clock in UTC with English month names, a remote side that serves a
    fixed table of pages, and a parser given by its table of parsed
    pages. *)

Module Fixture.

Definition decimal (z : Z) : string := NilZero.string_of_int (Z.to_int z).

Definition two_digits (z : Z) : string :=
  ((if (z <? 10)%Z then "0" else "") ++ decimal z)%string.

Definition month_name (m : Z) : string :=
  nth (Z.to_nat (m - 1))
    ["January"; "February"; "March"; "April"; "May"; "June"; "July";
     "August"; "September"; "October"; "November"; "December"] "".

(** The civil date (year, month, day) of a day count from 1 January
    1970, in the proleptic Gregorian calendar. *)
Definition civil_from_days (days : Z) : Z * Z * Z :=
  let z := (days + 719468)%Z in
  let era := (z / 146097)%Z in
  let doe := (z - era * 146097)%Z in
  let yoe := ((doe - doe / 1460 + doe / 36524 - doe / 146096) / 365)%Z in
  let doy := (doe - (365 * yoe + yoe / 4 - yoe / 100))%Z in
  let mp := ((5 * doy + 2) / 153)%Z in
  let d := (doy - (153 * mp + 2) / 5 + 1)%Z in
  let m := (if (mp <? 10)%Z then mp + 3 else mp - 9)%Z in
  let y := (yoe + era * 400 + (if (m <=? 2)%Z then 1 else 0))%Z in
  (y, m, d).

Definition utc_day (n : Z) : result string :=
  let '(y, m, d) := civil_from_days (n / 1000 / 86400) in
  Ok (two_digits d ++ " " ++ month_name m ++ " " ++ decimal y)%string.

Definition not_found : response := {| status_code := 404; text := "" |}.

(** A site is a table from URLs to parsed pages.  The source text of a
    page is its URL, so that the parser finds the tree again. *)
Definition serve (site : odict node) : log -> string -> result response :=
  fun _ url =>
    match lookup url site with
    | Some _ => Ok {| status_code := 200; text := url |}
    | None => Ok not_found
    end.

Definition empty_document : node := Tag "[document]" [] [].

Definition parse (site : odict node) : string -> string -> node :=
  fun source _ =>
    match lookup source site with
    | Some soup => soup
    | None => empty_document
    end.

(** One result container of the results page. *)
Definition result_con (timestamp href one blob two ev map_text : string)
  : node :=
  Tag "div" [("class", "result-con"); (TIMESTAMP, timestamp)]
    [Tag "a" [("href", href); ("class", "a-reset")]
       [Tag "div" [("class", "result")]
          [Tag "td" [("class", "team-cell")]
             [Tag "div" [("class", "line-align team1")]
                [Tag "div" [("class", "team team-won")]
                   [NavigableString one]]];
           Tag "td" [("class", "result-score")] [NavigableString blob];
           Tag "td" [("class", "team-cell")]
             [Tag "div" [("class", "line-align team2")]
                [Tag "div" [("class", "team")]
                   [NavigableString two]]];
           Tag "td" [("class", "event")]
             [Tag "span" [("class", "event-name")] [NavigableString ev]];
           Tag "td" [("class", "star-cell")]
             [Tag "div" [("class", "map-text")]
                [NavigableString map_text]]]]].

Definition document (contents : list node) : node :=
  Tag "[document]" [] contents.

Definition mapname (name : string) : node :=
  Tag "div" [("class", "mapname")] [NavigableString name].

Definition self : CounterScrape :=
  {| current_date := "14 July 2017"; url := "https://www.hltv.org" |}.

Definition results_url : string := "https://www.hltv.org/results".

(** 14 July 2017, 02:40 UTC. *)
Definition astralis : node :=
  result_con "1500000000000" "/matches/1/astralis-vs-navi"
    " Astralis " "16 : 9" "NaVi" "ESL Pro League" "mrg".

(** 14 July 2017, 00:00 UTC: earlier than the match listed before it. *)
Definition fnatic : node :=
  result_con "1499990400000" "/matches/2/fnatic-vs-nip"
    "fnatic" "16-9" "NiP" "DreamHack Open" "inf".

(** 12 July 2017. *)
Definition yesterday : node :=
  result_con "1499900000000" "/matches/3/g2-vs-envyus"
    "G2" "16 : 4" "EnVyUs" "ESL Pro League" "trn".

(** The same timestamp as [astralis]. *)
Definition cloud9 : node :=
  result_con "1500000000000" "/matches/4/cloud9-vs-liquid"
    "Cloud9" "19 : 17" "Liquid" "ECS Season 3" "cch".

(** A series: two maps were played of the three that were picked. *)
Definition sk : node :=
  result_con "1500003600000" "/matches/5/sk-vs-faze"
    "SK" "2 - 0" "FaZe" "ESL One Cologne" "bo3".

Definition sk_detail : node :=
  document [mapname "Cache"; mapname "Mirage"; mapname "Inferno"].

(** A map code that the table does not have. *)
Definition virtus : node :=
  result_con "1500007200000" "/matches/6/virtus-pro-vs-mousesports"
    "Virtus.pro" "16 : 14" "mousesports" "ESL One Cologne" "d2".

(** A forfeit: the score cell holds no numbers. *)
Definition forfeit : node :=
  result_con "1500010800000" "/matches/7/heroic-vs-north"
    "Heroic" "W - FF" "North" "DreamHack Open" "-".

Definition forfeit_record : MatchRecord :=
  {| team_one := "Heroic"; team_one_score := "W";
     team_two := "North"; team_two_score := "FF";
     event := "DreamHack Open"; maps := "Default win" |}.

Definition astralis_record : MatchRecord :=
  {| team_one := "Astralis"; team_one_score := "16";
     team_two := "NaVi"; team_two_score := "9";
     event := "ESL Pro League"; maps := "Mirage" |}.

Definition fnatic_record : MatchRecord :=
  {| team_one := "fnatic"; team_one_score := "16-9";
     team_two := "NiP"; team_two_score := "16-9";
     event := "DreamHack Open"; maps := "Inferno" |}.

Definition cloud9_record : MatchRecord :=
  {| team_one := "Cloud9"; team_one_score := "19";
     team_two := "Liquid"; team_two_score := "17";
     event := "ECS Season 3"; maps := "Cache" |}.

(** A tag inside a result container. *)
Definition team_cell : node :=
  Tag "td" [("class", "team-cell")] [NavigableString "NaVi"].

Definition sk_url : string := "https://www.hltv.org/matches/5/sk-vs-faze".

(** The site whose results page lists [results]. *)
Definition site_of (results : list node) : odict node :=
  [(results_url, document results); (sk_url, sk_detail)].

Definition network (results : list node) : log -> string -> result response :=
  serve (site_of results).

Definition BeautifulSoup (results : list node) : string -> string -> node :=
  parse (site_of results).

(** A result container without the timestamp attribute. *)
Definition no_stamp : node := Tag "div" [("class", "result-con")] [].

(** A result container whose timestamp is not a number. *)
Definition bad_stamp : node :=
  result_con "soon" "/matches/8/tba-vs-tba"
    "TBA" "0 : 0" "TBA" "ESL Pro League" "mrg".

(** 14 July 2017, 06:40 UTC: the score cell is blank. *)
Definition no_score : node :=
  result_con "1500014400000" "/matches/9/gambit-vs-immortals"
    "Gambit" " " "Immortals" "PGL Major" "ovp".

(** A result container with a score cell and nothing else. *)
Definition no_team : node :=
  Tag "div" [("class", "result-con"); (TIMESTAMP, "1500018000000")]
    [Tag "td" [("class", "result-score")] [NavigableString "16 : 3"]].

(** A series that was forfeited. *)
Definition series_forfeit : node :=
  result_con "1500021600000" "/matches/10/big-vs-optic"
    "BIG" "W - FF" "OpTic" "ESL One Cologne" "bo3".

(** A series that is not inside a link. *)
Definition series_no_link : node :=
  Tag "div" [("class", "result-con"); (TIMESTAMP, "1500025200000")]
    [Tag "div" [("class", "team1")] [NavigableString "Space Soldiers"];
     Tag "td" [("class", "result-score")] [NavigableString "2 - 1"];
     Tag "div" [("class", "team2")] [NavigableString "HellRaisers"];
     Tag "span" [("class", "event-name")] [NavigableString "ESEA MDL"];
     Tag "div" [("class", "map-text")] [NavigableString "bo3"]].

Definition sk_record : MatchRecord :=
  {| team_one := "SK"; team_one_score := "2";
     team_two := "FaZe"; team_two_score := "0";
     event := "ESL One Cologne"; maps := "Cache Mirage" |}.

(** Results pages. *)
Definition series_page : list node := [astralis; sk; fnatic].

Definition malformed_page : list node := [astralis; sk; bad_stamp].

Definition blank_page : list node := [astralis; sk; no_score; fnatic].

Definition day_page : list node := [astralis; fnatic; yesterday].

Definition repeat_page : list node := [astralis; fnatic; cloud9].

Definition twin_page : list node := [astralis; cloud9].

Definition unknown_page : list node := [astralis; virtus; fnatic].

Definition forfeit_page : list node := [forfeit].

End Fixture.

(** ** Properties *)

(** *** Strings *)

Lemma append_nil_r (s : string) : (s ++ "")%string = s.
Proof. induction s as [|c s IH]; simpl; [reflexivity | now rewrite IH]. Qed.

Lemma append_assoc (s1 s2 s3 : string) :
  ((s1 ++ s2) ++ s3)%string = (s1 ++ (s2 ++ s3))%string.
Proof. induction s1 as [|c s1 IH]; simpl; [reflexivity | now rewrite IH]. Qed.

Lemma length_append (s1 s2 : string) :
  String.length (s1 ++ s2) = String.length s1 + String.length s2.
Proof. induction s1 as [|c s1 IH]; simpl; [reflexivity | now rewrite IH]. Qed.

Lemma no_space_append (s1 s2 : string) :
  no_space (s1 ++ s2) = no_space s1 && no_space s2.
Proof.
  unfold no_space. induction s1 as [|c s1 IH]; simpl; [reflexivity|].
  rewrite IH. now rewrite andb_assoc.
Qed.


Lemma split_from_all_space (pre s : string) :
  all_space pre = true -> split_from "" (pre ++ s) = split_from "" s.
Proof.
  induction pre as [|c pre IH]; intros H; [reflexivity|].
  unfold all_space in H. simpl in H. apply andb_prop in H as [Hc Hs].
  simpl. rewrite Hc. simpl. now apply IH.
Qed.

Lemma split_all_space (s : string) :
  all_space s = true -> split_from "" s = [].
Proof.
  intros H. rewrite <- (append_nil_r s).
  now rewrite split_from_all_space.
Qed.






Lemma item_first_cons {A : Type} (x : A) (l : list A) :
  item_first (x :: l) = Ok x.
Proof. reflexivity. Qed.

Lemma item_last_snoc {A : Type} (l : list A) (x : A) :
  item_last (l ++ [x]) = Ok x.
Proof.
  destruct l as [|y l]; [reflexivity|]. simpl. now rewrite last_last.
Qed.

(** Every element of [s.split()] is a token. *)
Lemma split_from_tokens (s tok x : string) :
  no_space tok = true -> In x (split_from tok s) -> is_token x = true.
Proof.
  revert tok. induction s as [|c s IH]; intros tok Ht Hx; simpl in Hx.
  - destruct (is_empty tok) eqn:He; [contradiction|].
    destruct Hx as [<- | []]. unfold is_token. now rewrite He, Ht.
  - destruct (isspace c) eqn:Hc.
    + apply in_app_or in Hx as [Hx | Hx].
      * destruct (is_empty tok) eqn:He; [contradiction|].
        destruct Hx as [<- | []]. unfold is_token. now rewrite He, Ht.
      * now apply (IH ""%string).
    + apply (IH (tok ++ String c "")%string); [|exact Hx].
      rewrite no_space_append, Ht. unfold no_space. simpl. now rewrite Hc.
Qed.

Lemma split_tokens (s x : string) : In x (split s) -> is_token x = true.
Proof. now apply split_from_tokens. Qed.

Lemma item_first_In {A : Type} (l : list A) (x : A) :
  item_first l = Ok x -> In x l.
Proof. destruct l; simpl; [discriminate|]. intros [= ->]. now left. Qed.

Lemma last_In {A : Type} (l : list A) (d : A) :
  l <> [] -> In (last l d) l.
Proof.
  induction l as [|z l IH]; intros H; [contradiction|].
  destruct l as [|a l]; [now left|].
  right. apply IH. discriminate.
Qed.

Lemma item_last_In {A : Type} (l : list A) (x : A) :
  item_last l = Ok x -> In x l.
Proof.
  destruct l as [|y l]; simpl; [discriminate|]. intros [= <-].
  destruct l as [|z l]; [now left|].
  right. apply last_In. discriminate.
Qed.

(** *** From the list of tokens back to the text *)

Lemma is_empty_snoc (s : string) (c : ascii) :
  is_empty (s ++ String c "") = false.
Proof. destruct s; reflexivity. Qed.

(** A run that has begun ends at the first whitespace character or at
    the end of the text, and is the first element of the list. *)
Lemma split_from_run (s tok t : string) (l : list string) :
  is_empty tok = false ->
  split_from tok s = t :: l ->
  exists mid rest,
    s = (mid ++ rest)%string /\ t = (tok ++ mid)%string /\
    no_space mid = true /\ starts_with_space rest = true.
Proof.
  revert tok. induction s as [|c s IH]; intros tok Ht H; simpl in H.
  - rewrite Ht in H. injection H as <- _.
    exists "", "". repeat split. now rewrite append_nil_r.
  - destruct (isspace c) eqn:Hc.
    + rewrite Ht in H. injection H as <- _.
      exists "", (String c s). repeat split; [|exact Hc].
      now rewrite append_nil_r.
    + apply IH in H as (mid & rest & -> & -> & Hm & Hr);
        [|apply is_empty_snoc].
      exists (String c mid), rest. rewrite append_assoc. simpl.
      repeat split; try assumption.
      unfold no_space in *. simpl. now rewrite Hc.
Qed.

Lemma split_from_nonempty (s tok : string) :
  is_empty tok = false -> split_from tok s <> [].
Proof.
  revert tok. induction s as [|c s IH]; intros tok Ht; simpl.
  - now rewrite Ht.
  - destruct (isspace c).
    + now rewrite Ht.
    + apply IH, is_empty_snoc.
Qed.

Lemma split_from_none (s : string) :
  split_from "" s = [] -> all_space s = true.
Proof.
  induction s as [|c s IH]; [reflexivity|]. simpl.
  destruct (isspace c) eqn:Hc.
  - intros H. unfold all_space in *. simpl. rewrite Hc. now apply IH.
  - intros H. now apply split_from_nonempty in H.
Qed.

(** The first element of [s.split()] is the first token of [s]. *)
Lemma split_first_token_inv (s t : string) :
  item_first (split s) = Ok t -> first_token s t.
Proof.
  unfold split. destruct (split_from "" s) as [|t' l] eqn:E;
    [discriminate|].
  intros [= ->]. revert E. induction s as [|c s IH]; [discriminate|].
  simpl. destruct (isspace c) eqn:Hc.
  - intros H. destruct (IH H) as (pre & rest & -> & Hp & Ht & Hr).
    exists (String c pre), rest. repeat split; try assumption.
    unfold all_space in *. simpl. now rewrite Hc.
  - intros H.
    apply split_from_run in H as (mid & rest & -> & -> & Hm & Hr);
      [|reflexivity].
    exists "", rest. repeat split; try assumption.
    unfold is_token, no_space in *. simpl. now rewrite Hc.
Qed.

Lemma item_last_app {A : Type} (l1 l2 : list A) :
  l2 <> [] -> item_last (l1 ++ l2) = item_last l2.
Proof.
  intros H. destruct (exists_last H) as (l & x & ->).
  now rewrite app_assoc, !item_last_snoc.
Qed.

(** The last element of the list is either the end of the run that had
    begun, or a run that begins after a whitespace character; only
    whitespace follows it. *)
Lemma split_from_last (s tok t : string) :
  item_last (split_from tok s) = Ok t ->
  (exists mid post,
      s = (mid ++ post)%string /\ t = (tok ++ mid)%string /\
      no_space mid = true /\ all_space post = true) \/
  (exists rest c post,
      s = (rest ++ String c (t ++ post))%string /\ isspace c = true /\
      all_space post = true).
Proof.
  revert tok. induction s as [|c s IH]; intros tok H; simpl in H.
  - destruct (is_empty tok); [discriminate|]. injection H as <-.
    left. exists "", "". repeat split. now rewrite append_nil_r.
  - destruct (isspace c) eqn:Hc.
    + destruct (split_from "" s) as [|x l] eqn:E.
      * rewrite app_nil_r in H.
        destruct (is_empty tok); [discriminate|]. injection H as <-.
        left. exists "", (String c s).
        repeat split; [now rewrite append_nil_r|].
        unfold all_space. simpl. rewrite Hc.
        now apply split_from_none.
      * rewrite item_last_app in H by discriminate. rewrite <- E in H.
        right. destruct (IH "" H)
          as [(mid & post & -> & -> & Hm & Hp)
             | (rest & c' & post & -> & Hc' & Hp)].
        -- now exists "", c, post.
        -- now exists (String c rest), c', post.
    + destruct (IH _ H)
        as [(mid & post & -> & -> & Hm & Hp)
           | (rest & c' & post & -> & Hc' & Hp)].
      * left. exists (String c mid), post. rewrite append_assoc. simpl.
        repeat split; try assumption.
        unfold no_space in *. simpl. now rewrite Hc.
      * right. now exists (String c rest), c', post.
Qed.

(** The last element of [s.split()] is the last token of [s]. *)
Lemma split_last_token_inv (s t : string) :
  item_last (split s) = Ok t -> last_token s t.
Proof.
  intros H. pose proof (split_tokens _ _ (item_last_In _ _ H)) as Ht.
  apply split_from_last in H
    as [(mid & post & -> & -> & Hm & Hp)
       | (rest & c & post & -> & Hc & Hp)].
  - exists "", post. simpl in *. auto.
  - exists (rest ++ String c "")%string, post. rewrite append_assoc. simpl.
    repeat split; try assumption. right. now exists rest, c.
Qed.

(** *** Ordered dictionaries *)

Lemma mem_In (x : string) (l : list string) : mem x l = true <-> In x l.
Proof.
  unfold mem. rewrite existsb_exists. split.
  - intros (y & Hy & E). apply String.eqb_eq in E. now subst.
  - intros H. exists x. split; [exact H | apply String.eqb_refl].
Qed.

Lemma mem_not_In (x : string) (l : list string) :
  mem x l = false <-> ~ In x l.
Proof.
  rewrite <- mem_In. destruct (mem x l); split; intros H;
    congruence || (now exfalso; apply H) || discriminate.
Qed.

Lemma keys_setitem {V : Type} (k : string) (v : V) (d : odict V) :
  keys (setitem k v d) = add_key (keys d) k.
Proof.
  unfold add_key, keys. induction d as [|[k' v'] d IH]; simpl; [reflexivity|].
  rewrite (String.eqb_sym k k'). destruct (String.eqb k' k); simpl.
  - reflexivity.
  - rewrite IH. now destruct (mem k (map fst d)).
Qed.

Lemma lookup_setitem_same {V : Type} (k : string) (v : V) (d : odict V) :
  lookup k (setitem k v d) = Some v.
Proof.
  induction d as [|[k' v'] d IH]; simpl.
  - now rewrite String.eqb_refl.
  - destruct (String.eqb k' k) eqn:E; simpl; rewrite E;
      [reflexivity | exact IH].
Qed.

Lemma lookup_setitem_other {V : Type} (k k0 : string) (v : V) (d : odict V) :
  k <> k0 -> lookup k0 (setitem k v d) = lookup k0 d.
Proof.
  intros Hk. induction d as [|[k' v'] d IH]; simpl.
  - apply String.eqb_neq in Hk. now rewrite Hk.
  - destruct (String.eqb k' k) eqn:E; simpl.
    + apply String.eqb_eq in E. subst k'.
      apply String.eqb_neq in Hk. now rewrite Hk.
    + now rewrite IH.
Qed.

Lemma lookup_None_keys {V : Type} (k : string) (d : odict V) :
  lookup k d = None <-> ~ In k (keys d).
Proof.
  unfold keys. induction d as [|[k' v'] d IH]; simpl.
  - tauto.
  - destruct (String.eqb k' k) eqn:E.
    + apply String.eqb_eq in E. split; [discriminate | intros H; exfalso; auto].
    + apply String.eqb_neq in E. rewrite IH. tauto.
Qed.

Lemma lookup_app {V : Type} (k : string) (d1 d2 : odict V) :
  lookup k (d1 ++ d2)
  = match lookup k d1 with Some v => Some v | None => lookup k d2 end.
Proof.
  induction d1 as [|[k' v'] d1 IH]; simpl; [reflexivity|].
  now destruct (String.eqb k' k).
Qed.

(** Inserting a new key appends it. *)
Lemma setitem_fresh {V : Type} (k : string) (v : V) (d : odict V) :
  ~ In k (keys d) -> setitem k v d = d ++ [(k, v)].
Proof.
  unfold keys. induction d as [|[k' v'] d IH]; simpl; intros H; [reflexivity|].
  destruct (String.eqb k' k) eqn:E.
  - apply String.eqb_eq in E. exfalso. auto.
  - rewrite IH; [reflexivity | tauto].
Qed.

Lemma keys_fold_setitem {V : Type} (es : list (string * V)) (d : odict V) :
  keys (fold_left insert_entry es d) = fold_left add_key (map fst es) (keys d).
Proof.
  revert d. induction es as [|[k v] es IH]; intros d; simpl; [reflexivity|].
  rewrite IH. unfold insert_entry. simpl. now rewrite keys_setitem.
Qed.

(** After a sequence of insertions a key holds the value inserted last
    under it, or the value it had before when it was not inserted. *)
Lemma lookup_fold_setitem {V : Type} (k : string) (es : list (string * V))
    (d : odict V) :
  lookup k (fold_left insert_entry es d)
  = match lookup_last k es with Some v => Some v | None => lookup k d end.
Proof.
  unfold lookup_last. revert d.
  induction es as [|[k' v'] es IH]; intros d; simpl; [reflexivity|].
  rewrite IH, lookup_app. unfold insert_entry. simpl.
  destruct (lookup k (rev es)); [reflexivity|].
  destruct (String.eqb k' k) eqn:E.
  - apply String.eqb_eq in E. subst k'. apply lookup_setitem_same.
  - apply String.eqb_neq in E. now apply lookup_setitem_other.
Qed.

Lemma fold_setitem_fresh {V : Type} (es : list (string * V)) (d : odict V) :
  NoDup (keys d ++ map fst es) -> fold_left insert_entry es d = d ++ es.
Proof.
  revert d. induction es as [|[k v] es IH]; intros d H; simpl.
  - now rewrite app_nil_r.
  - simpl in H. unfold insert_entry at 2. simpl.
    assert (Hk : ~ In k (keys d)).
    { apply NoDup_remove_2 in H. intros Hin. apply H.
      apply in_or_app. now left. }
    rewrite setitem_fresh by exact Hk.
    rewrite IH.
    + now rewrite <- app_assoc.
    + unfold keys in *. rewrite map_app. simpl.
      rewrite <- app_assoc. simpl.
      apply NoDup_remove_1 in H as H1.
      apply NoDup_remove_2 in H as H2.
      clear IH H Hk. revert H1 H2. generalize (map fst d) (map fst es).
      intros l1 l2 H1 H2. induction l1 as [|a l1 IH]; simpl in *.
      * constructor; assumption.
      * inversion H1 as [|? ? Ha Hr]; subst. constructor.
        -- intros Hin. apply in_app_or in Hin as [Hin | [-> | Hin]].
           ++ apply Ha. apply in_or_app. now left.
           ++ apply H2. now left.
           ++ apply Ha. apply in_or_app. now right.
        -- apply IH; [exact Hr | tauto].
Qed.

(** A dictionary built from pairs with distinct keys is the list of the
    pairs. *)
Lemma odict_of_pairs_NoDup {V : Type} (pairs : list (string * V)) :
  NoDup (map fst pairs) -> odict_of_pairs pairs = pairs.
Proof.
  intros H. unfold odict_of_pairs. now rewrite fold_setitem_fresh.
Qed.

Lemma add_key_In (ks : list string) (k x : string) :
  In x (add_key ks k) <-> In x ks \/ x = k.
Proof.
  unfold add_key. destruct (mem k ks) eqn:E.
  - apply mem_In in E. split; [tauto | intros [H | ->]; assumption].
  - rewrite in_app_iff. simpl. split; intros [H | H]; auto.
    destruct H as [-> | []]. now right.
Qed.

Lemma add_key_NoDup (ks : list string) (k : string) :
  NoDup ks -> NoDup (add_key ks k).
Proof.
  unfold add_key. intros H. destruct (mem k ks) eqn:E; [exact H|].
  apply mem_not_In in E.
  apply NoDup_app; [exact H | repeat constructor; auto |].
  intros a Ha [<- | []]. contradiction.
Qed.

Lemma fold_add_key_In (l ks : list string) (x : string) :
  In x (fold_left add_key l ks) <-> In x ks \/ In x l.
Proof.
  revert ks. induction l as [|k l IH]; intros ks; simpl; [tauto|].
  rewrite IH, add_key_In. split; intros H; intuition auto.
Qed.

Lemma fold_add_key_NoDup (l ks : list string) :
  NoDup ks -> NoDup (fold_left add_key l ks).
Proof.
  revert ks. induction l as [|k l IH]; intros ks H; simpl; [exact H|].
  apply IH. now apply add_key_NoDup.
Qed.

Lemma distinct_In (l : list string) (x : string) :
  In x (distinct l) <-> In x l.
Proof. unfold distinct. rewrite fold_add_key_In. simpl. tauto. Qed.

Lemma distinct_NoDup (l : list string) : NoDup (distinct l).
Proof. apply fold_add_key_NoDup. constructor. Qed.

Lemma fold_add_key_fresh (l ks : list string) :
  NoDup (ks ++ l) -> fold_left add_key l ks = ks ++ l.
Proof.
  revert ks. induction l as [|k l IH]; intros ks H; simpl.
  - now rewrite app_nil_r.
  - assert (Hk : mem k ks = false).
    { apply mem_not_In. apply NoDup_remove_2 in H.
      intros Hin. apply H. apply in_or_app. now left. }
    unfold add_key at 2. rewrite Hk. rewrite IH.
    + now rewrite <- app_assoc.
    + rewrite <- app_assoc. exact H.
Qed.

Lemma distinct_NoDup_id (l : list string) : NoDup l -> distinct l = l.
Proof. intros H. unfold distinct. now rewrite fold_add_key_fresh. Qed.

(** The number of distinct keys. *)
Lemma distinct_length (l : list string) :
  length (distinct l) = length (nodup string_dec l).
Proof.
  apply Nat.le_antisymm; apply NoDup_incl_length.
  - apply distinct_NoDup.
  - intros x Hx. apply nodup_In. now apply distinct_In.
  - apply NoDup_nodup.
  - intros x Hx. apply distinct_In. now apply nodup_In in Hx.
Qed.

Lemma fold_setitem_NoDup {V : Type} (es : list (string * V)) :
  NoDup (keys (odict_of_pairs es)).
Proof.
  unfold odict_of_pairs. rewrite keys_fold_setitem.
  apply fold_add_key_NoDup. constructor.
Qed.

Lemma In_setitem {V : Type} (k k0 : string) (v v0 : V) (d : odict V) :
  In (k0, v0) (setitem k v d) -> In (k0, v0) d \/ (k0, v0) = (k, v).
Proof.
  induction d as [|[k' v'] d IH]; simpl.
  - intros [E | []]. now right.
  - destruct (String.eqb k' k) eqn:E; simpl.
    + apply String.eqb_eq in E. subst k'.
      intros [H | H]; [right; congruence | left; now right].
    + intros [H | H]; [left; now left|].
      destruct (IH H) as [H' | H']; [left; now right | now right].
Qed.

Lemma In_fold_setitem {V : Type} (k : string) (v : V)
    (es : list (string * V)) (d : odict V) :
  In (k, v) (fold_left insert_entry es d) -> In (k, v) d \/ In (k, v) es.
Proof.
  revert d. induction es as [|[k' v'] es IH]; intros d; simpl; [now left|].
  intros H. apply IH in H as [H | H]; [|right; now right].
  unfold insert_entry in H. simpl in H.
  apply In_setitem in H as [H | H]; [now left | right; left; now symmetry].
Qed.

(** *** The two monads *)

Lemma bind_Ok {A B : Type} (c : M A) (k : A -> M B) (w w' : log) (b : B) :
  bind c k w = (Ok b, w') ->
  exists a w1, c w = (Ok a, w1) /\ k a w1 = (Ok b, w').
Proof.
  unfold bind. destruct (c w) as [[a | e] w1]; intros H.
  - now exists a, w1.
  - discriminate.
Qed.

Lemma bind_step {A B : Type} (c : M A) (k : A -> M B) (w w1 : log) (a : A) :
  c w = (Ok a, w1) -> bind c k w = k a w1.
Proof. unfold bind. now intros ->. Qed.

Lemma bind_Raise {A B : Type} (c : M A) (k : A -> M B) (w w1 : log) (e : exn) :
  c w = (Raise e, w1) -> bind c k w = (Raise e, w1).
Proof. unfold bind. now intros ->. Qed.

Lemma lift_Ok {A : Type} (r : result A) (w w' : log) (a : A) :
  lift r w = (Ok a, w') -> r = Ok a /\ w' = w.
Proof. unfold lift. now intros [= -> ->]. Qed.

Lemma rbind_Ok {A B : Type} (c : result A) (k : A -> result B) (b : B) :
  rbind c k = Ok b -> exists a, c = Ok a /\ k a = Ok b.
Proof. destruct c as [a | e]; simpl; [now exists a | discriminate]. Qed.

(** *** The filter *)

Section Filter.

Variable local_day : Z -> result string.
Variable self : CounterScrape.

Lemma is_result_con_is_tag (n : node) :
  is_result_con n = true -> is_tag n = true.
Proof. destruct n; [discriminate | reflexivity]. Qed.

(** Where [check_match_date] returns, it returns what the
    specification's predicate says. *)
Lemma check_match_date_Ok (n : node) (b : bool) :
  check_match_date local_day self n = Ok b ->
  b = is_today_match local_day self n.
Proof.
  unfold check_match_date, is_today_match, TIMESTAMP.
  destruct (is_result_con n); simpl.
  - destruct (getitem n _) as [ts | e]; simpl; [|discriminate].
    destruct (convert_timestamp local_day ts) as [day | e]; simpl;
      [|discriminate].
    now intros [= <-].
  - now intros [= <-].
Qed.

Lemma find_all_matching_Ok (l found : list node) :
  find_all_matching (check_match_date local_day self) l = Ok found ->
  found = filter (is_today_match local_day self) l.
Proof.
  revert found. induction l as [|n l IH]; intros found; simpl.
  - now intros [= <-].
  - destruct (is_tag n) eqn:Htag.
    + intros H. apply rbind_Ok in H as (b & Hb & H).
      apply rbind_Ok in H as (found' & Hf & H).
      injection H as <-. apply check_match_date_Ok in Hb. subst b.
      rewrite <- (IH found' Hf).
      now destruct (is_today_match local_day self n).
    + intros H. apply IH in H. subst found.
      assert (E : is_today_match local_day self n = false).
      { unfold is_today_match.
        destruct (is_result_con n) eqn:Hr; [|reflexivity].
        apply is_result_con_is_tag in Hr. congruence. }
      now rewrite E.
Qed.

(** The nodes that [get_results] retains are the result containers of
    the day, in document order. *)
Lemma find_all_fn_Ok (soup : node) (retained : list node) :
  find_all_fn (check_match_date local_day self) soup = Ok retained ->
  retained = today_nodes local_day self soup.
Proof. apply find_all_matching_Ok. Qed.

Lemma today_node_timestamp (n : node) :
  is_today_match local_day self n = true ->
  getitem n TIMESTAMP = Ok (timestamp_of n) /\
  exists z, int (timestamp_of n) = Ok z.
Proof.
  unfold is_today_match, timestamp_of, getitem.
  destruct (is_result_con n); simpl; [|discriminate].
  destruct (lookup TIMESTAMP (tag_attrs n)) as [ts|]; [|discriminate].
  unfold convert_timestamp.
  destruct (int ts) as [z | e]; simpl; [|discriminate].
  intros _. split; [reflexivity | now exists z].
Qed.

End Filter.

(** *** One retained node *)

Section Records.

Variable network : log -> string -> result response.
Variable BeautifulSoup : string -> string -> node.
Variable self : CounterScrape.

(** [match_record] on a node whose fields up to the raw maps text are
    there. *)
Lemma match_record_fields (n : node) (w : log)
    (k t1 t2 blob s1 s2 ev m : string) :
  getitem n TIMESTAMP = Ok k ->
  text_of true (select_one "team1" n) = Ok t1 ->
  text_of true (select_one "team2" n) = Ok t2 ->
  text_of false (select_one "result-score" n) = Ok blob ->
  item_first (split blob) = Ok s1 ->
  item_last (split blob) = Ok s2 ->
  text_of false (select_one "event-name" n) = Ok ev ->
  text_of false (select_one "map-text" n) = Ok m ->
  match_record network BeautifulSoup self n w
  = match maps_field network BeautifulSoup self n s1 s2 m w with
    | (Ok mp, w') =>
        (Ok (k, {| team_one := t1; team_one_score := s1;
                   team_two := t2; team_two_score := s2;
                   event := ev; maps := mp |}), w')
    | (Raise e, w') => (Raise e, w')
    end.
Proof.
  unfold TIMESTAMP. intros Hk H1 H2 Hb Hs1 Hs2 He Hm.
  unfold match_record, maps_field, bind, lift.
  rewrite Hk, H1, H2, Hb, Hs1, Hs2, He, Hm. reflexivity.
Qed.

(** What a record that [match_record] returns is made of. *)
Lemma match_record_Ok (n : node) (w w' : log) (k : string)
    (r : MatchRecord) :
  match_record network BeautifulSoup self n w = (Ok (k, r), w') ->
  exists blob m,
    getitem n TIMESTAMP = Ok k /\
    text_of true (select_one "team1" n) = Ok (team_one r) /\
    text_of true (select_one "team2" n) = Ok (team_two r) /\
    text_of false (select_one "result-score" n) = Ok blob /\
    item_first (split blob) = Ok (team_one_score r) /\
    item_last (split blob) = Ok (team_two_score r) /\
    text_of false (select_one "event-name" n) = Ok (event r) /\
    text_of false (select_one "map-text" n) = Ok m /\
    maps_field network BeautifulSoup self n
      (team_one_score r) (team_two_score r) m w
    = (Ok (maps r), w').
Proof.
  unfold TIMESTAMP. intros H.
  destruct (getitem n "data-zonedgrouping-entry-unix") as [k0|] eqn:Hk;
    [|unfold match_record, bind, lift in H; rewrite Hk in H; discriminate].
  destruct (text_of true (select_one "team1" n)) as [t1|] eqn:H1;
    [|unfold match_record, bind, lift in H; rewrite Hk, H1 in H;
      discriminate].
  destruct (text_of true (select_one "team2" n)) as [t2|] eqn:H2;
    [|unfold match_record, bind, lift in H; rewrite Hk, H1, H2 in H;
      discriminate].
  destruct (text_of false (select_one "result-score" n)) as [blob|] eqn:Hb;
    [|unfold match_record, bind, lift in H; rewrite Hk, H1, H2, Hb in H;
      discriminate].
  destruct (item_first (split blob)) as [s1|] eqn:Hs1;
    [|unfold match_record, bind, lift in H;
      rewrite Hk, H1, H2, Hb, Hs1 in H; discriminate].
  destruct (item_last (split blob)) as [s2|] eqn:Hs2;
    [|unfold match_record, bind, lift in H;
      rewrite Hk, H1, H2, Hb, Hs1, Hs2 in H; discriminate].
  destruct (text_of false (select_one "event-name" n)) as [ev|] eqn:He;
    [|unfold match_record, bind, lift in H;
      rewrite Hk, H1, H2, Hb, Hs1, Hs2, He in H; discriminate].
  destruct (text_of false (select_one "map-text" n)) as [m|] eqn:Hm;
    [|unfold match_record, bind, lift in H;
      rewrite Hk, H1, H2, Hb, Hs1, Hs2, He, Hm in H; discriminate].
  rewrite (match_record_fields n w k0 t1 t2 blob s1 s2 ev m) in H
    by assumption.
  destruct (maps_field network BeautifulSoup self n s1 s2 m w)
    as [[mp | e] w1] eqn:Hmp;
    [|discriminate].
  injection H as <- <- <-. simpl.
  exists blob, m. repeat split; assumption.
Qed.

Lemma match_record_key (n : node) (w w' : log) (k : string)
    (r : MatchRecord) :
  match_record network BeautifulSoup self n w = (Ok (k, r), w') ->
  k = timestamp_of n.
Proof.
  intros H. apply match_record_Ok in H as (blob & m & Hk & _).
  unfold getitem, timestamp_of in *.
  destruct (lookup TIMESTAMP (tag_attrs n)); now inversion Hk.
Qed.

(** *** The loop *)

Lemma collect_app (acc : odict MatchRecord) (l1 l2 : list node) (w : log) :
  collect network BeautifulSoup self acc (l1 ++ l2) w
  = bind (collect network BeautifulSoup self acc l1)
      (fun acc' => collect network BeautifulSoup self acc' l2) w.
Proof.
  revert acc w. induction l1 as [|n l1 IH]; intros acc w; simpl.
  - reflexivity.
  - unfold bind.
    destruct (match_record network BeautifulSoup self n w)
      as [[entry | e] w1]; [|reflexivity].
    rewrite IH. reflexivity.
Qed.

(** The dictionary at the end of the loop is the dictionary at its
    beginning with the records of the nodes inserted in order. *)
Lemma collect_entries (acc d : odict MatchRecord) (l : list node)
    (w w' : log) :
  collect network BeautifulSoup self acc l w = (Ok d, w') <->
  exists es,
    entries network BeautifulSoup self l w = (Ok es, w') /\
    d = fold_left insert_entry es acc.
Proof.
  revert acc w. induction l as [|n l IH]; intros acc w; simpl.
  - unfold ret. split.
    + intros [= <- <-]. now exists [].
    + intros (es & [= <- <-] & ->). reflexivity.
  - unfold bind.
    destruct (match_record network BeautifulSoup self n w)
      as [[entry | e] w1].
    + rewrite IH. split.
      * intros (es & He & ->). exists (entry :: es).
        rewrite He. unfold ret. now split.
      * intros (es & He & ->).
        destruct (entries network BeautifulSoup self l w1)
          as [[es' | e] w2]; [|discriminate].
        unfold ret in He. injection He as <- <-.
        now exists es'.
    + split; [discriminate | intros (es & He & _); discriminate].
Qed.

Lemma entries_keys (l : list node) (w w' : log)
    (es : list (string * MatchRecord)) :
  entries network BeautifulSoup self l w = (Ok es, w') ->
  map fst es = map timestamp_of l.
Proof.
  revert w es. induction l as [|n l IH]; intros w es; simpl.
  - unfold ret. now intros [= <- <-].
  - intros H. apply bind_Ok in H as ([k r] & w1 & Hn & H).
    apply bind_Ok in H as (es' & w2 & Hl & H).
    unfold ret in H. injection H as <- <-. simpl.
    rewrite (IH _ _ Hl). now rewrite (match_record_key _ _ _ _ _ Hn).
Qed.

(** Each entry is the record of some node of the list, at the log that
    the loop had reached. *)
Lemma entries_In (l : list node) (w w' : log)
    (es : list (string * MatchRecord)) (k : string) (r : MatchRecord) :
  entries network BeautifulSoup self l w = (Ok es, w') ->
  In (k, r) es ->
  exists n w1 w2,
    In n l /\
    match_record network BeautifulSoup self n w1 = (Ok (k, r), w2).
Proof.
  revert w es. induction l as [|n l IH]; intros w es; simpl.
  - unfold ret. intros [= <- <-] [].
  - intros H Hin. apply bind_Ok in H as (entry & w1 & Hn & H).
    apply bind_Ok in H as (es' & w2 & Hl & H).
    unfold ret in H. injection H as <- <-.
    destruct Hin as [-> | Hin].
    + exists n, w, w1. split; [now left | exact Hn].
    + destruct (IH _ _ Hl Hin) as (n' & wa & wb & Hn' & Hr).
      exists n', wa, wb. split; [now right | exact Hr].
Qed.

(** Each node of the list has its record among the entries. *)
Lemma entries_node (l : list node) (w w' : log)
    (es : list (string * MatchRecord)) (n : node) :
  entries network BeautifulSoup self l w = (Ok es, w') ->
  In n l ->
  exists entry w1 w2,
    match_record network BeautifulSoup self n w1 = (Ok entry, w2).
Proof.
  revert w es. induction l as [|n' l IH]; intros w es; simpl.
  - intros _ [].
  - intros H Hin. apply bind_Ok in H as (entry & w1 & Hn & H).
    apply bind_Ok in H as (es' & w2 & Hl & H).
    unfold ret in H. injection H as <- <-.
    destruct Hin as [-> | Hin].
    + now exists entry, w, w1.
    + exact (IH _ _ Hl Hin).
Qed.

End Records.

(** *** The operations of [CounterScrape] *)

Section Operations.

Variable network : log -> string -> result response.
Variable BeautifulSoup : string -> string -> node.
Variable local_day : Z -> result string.
Variable self : CounterScrape.

(** A request extends the log by its URL, whatever comes back. *)
Lemma scrape_log (u tag : string) (w : log) :
  snd (scrape network BeautifulSoup u tag w) = w ++ [u].
Proof.
  unfold scrape, bind, session_get, lift, ret.
  destruct (network w u) as [r | e]; [|reflexivity].
  now destruct (raise_for_status r).
Qed.

Lemma get_maps_log (href : string) (count : Z) (w : log) :
  snd (get_maps network BeautifulSoup self href count w)
  = w ++ [(url self ++ href)%string].
Proof.
  unfold get_maps, bind.
  pose proof (scrape_log (url self ++ href) "mapname" w) as H.
  destruct (scrape network BeautifulSoup (url self ++ href) "mapname" w)
    as [[soup | e] w1]; exact H.
Qed.

Lemma get_maps_scraped (href : string) (count : Z) (w w' : log)
    (soup : node) :
  scrape network BeautifulSoup (url self ++ href) "mapname" w
  = (Ok soup, w') ->
  get_maps network BeautifulSoup self href count w
  = (Ok (join " " (slice_to (map_entries soup) count)), w').
Proof. intros H. unfold get_maps. now rewrite (bind_step _ _ _ _ _ H). Qed.

(** [get_results] up to serialization is the loop over the result
    containers of the day. *)
Lemma match_results_scraped (w w1 : log) (soup : node) :
  scrape network BeautifulSoup (url self ++ "/results") "result-con" w
  = (Ok soup, w1) ->
  forall retained,
    find_all_fn (check_match_date local_day self) soup = Ok retained ->
    match_results network BeautifulSoup local_day self w
    = collect network BeautifulSoup self [] retained w1.
Proof.
  intros Hs retained Hf. unfold match_results.
  rewrite (bind_step _ _ _ _ _ Hs). unfold bind, lift. now rewrite Hf.
Qed.

Lemma match_results_Ok (w w' : log) (d : odict MatchRecord) :
  match_results network BeautifulSoup local_day self w = (Ok d, w') ->
  exists soup w1,
    scrape network BeautifulSoup (url self ++ "/results") "result-con" w
    = (Ok soup, w1) /\
    find_all_fn (check_match_date local_day self) soup
    = Ok (today_nodes local_day self soup) /\
    collect network BeautifulSoup self [] (today_nodes local_day self soup)
      w1 = (Ok d, w').
Proof.
  intros H. unfold match_results in H.
  apply bind_Ok in H as (soup & w1 & Hs & H).
  apply bind_Ok in H as (retained & w2 & Hf & H).
  apply lift_Ok in Hf as [Hf ->].
  pose proof (find_all_fn_Ok _ _ _ _ Hf) as E. subst retained.
  now exists soup, w1.
Qed.

(** C9. A node that is not a [div] element carrying the class
    [result-con] is rejected by [check_match_date] before the timestamp
    attribute is looked at: the outcome is [False] and never an
    exception, whatever attributes the node has or lacks. *)
Theorem check_match_date_guard (tag : node) :
  ~ (tag_name tag = Some "div" /\ In "result-con" (get_class tag)) ->
  check_match_date local_day self tag = Ok false.
Proof.
  intros H. unfold check_match_date.
  assert (E : is_result_con tag = false).
  { unfold is_result_con, name_is.
    destruct (tag_name tag) as [name|] eqn:Hn; [|reflexivity].
    destruct (String.eqb_spec name "div") as [-> | Hd]; [|reflexivity].
    simpl. apply mem_not_In. intros Hin. apply H. now split. }
  now rewrite E.
Qed.




(** A node with an unknown map code has no record. *)
Lemma unknown_code_no_record (n : node) (m : string) :
  text_of false (select_one "map-text" n) = Ok m ->
  contains "bo" m = false ->
  lookup m MAPS = None ->
  forall w w' entry,
    match_record network BeautifulSoup self n w <> (Ok entry, w').
Proof.
  intros Hm Hbo Hl w w' [k r] H.
  apply match_record_Ok in H
    as (blob & m' & _ & _ & _ & _ & _ & _ & _ & Hm' & Hf).
  assert (m' = m) by congruence. subst m'.
  unfold maps_field in Hf. rewrite Hbo in Hf.
  unfold lift, subscript in Hf. rewrite Hl in Hf. discriminate.
Qed.

(** C5. A retained node whose raw maps text does not contain [bo] and is
    not a key of [MAPS] makes [get_results] raise: no dictionary is
    returned, whatever was extracted before.  Where the nodes before it
    have their records and its own fields up to the maps text are there,
    the exception is the [KeyError] of the lookup. *)
Theorem unknown_map_code_aborts (w w1 : log) (soup : node)
    (before after : list node) (n : node) (m : string) :
  scrape network BeautifulSoup (url self ++ "/results") "result-con" w
  = (Ok soup, w1) ->
  find_all_fn (check_match_date local_day self) soup
  = Ok (before ++ n :: after) ->
  text_of false (select_one "map-text" n) = Ok m ->
  contains "bo" m = false ->
  lookup m MAPS = None ->
  (exists e w',
      match_results network BeautifulSoup local_day self w = (Raise e, w'))
  /\
  (forall acc w2 t1 t2 blob s1 s2 ev,
      collect network BeautifulSoup self [] before w1 = (Ok acc, w2) ->
      text_of true (select_one "team1" n) = Ok t1 ->
      text_of true (select_one "team2" n) = Ok t2 ->
      text_of false (select_one "result-score" n) = Ok blob ->
      item_first (split blob) = Ok s1 ->
      item_last (split blob) = Ok s2 ->
      text_of false (select_one "event-name" n) = Ok ev ->
      match_results network BeautifulSoup local_day self w
      = (Raise (KeyError m), w2)).
Proof.
  intros Hs Hf Hm Hbo Hl.
  rewrite (match_results_scraped _ _ _ Hs _ Hf). split.
  - destruct (collect network BeautifulSoup self [] (before ++ n :: after) w1)
      as [[d | e] w'] eqn:Hc; [|now exists e, w'].
    exfalso. apply collect_entries in Hc as (es & He & _).
    destruct (entries_node _ _ _ _ _ _ _ n He) as (entry & wa & wb & Hr).
    + apply in_or_app. right. now left.
    + exact (unknown_code_no_record n m Hm Hbo Hl _ _ _ Hr).
  - intros acc w2 t1 t2 blob s1 s2 ev Hc H1 H2 Hb Hs1 Hs2 He.
    rewrite collect_app. rewrite (bind_step _ _ _ _ _ Hc). simpl.
    assert (Hk : getitem n TIMESTAMP = Ok (timestamp_of n)).
    { apply find_all_fn_Ok in Hf.
      assert (Hin : In n (today_nodes local_day self soup)).
      { rewrite <- Hf. apply in_or_app. right. now left. }
      apply filter_In in Hin as [_ Hin].
      now apply today_node_timestamp in Hin as [Hin _]. }
    apply bind_Raise.
    rewrite (match_record_fields _ _ _ n w2 (timestamp_of n)
               t1 t2 blob s1 s2 ev m) by assumption.
    unfold maps_field. rewrite Hbo. unfold lift, subscript. now rewrite Hl.
Qed.

(** C6, for counts that are not negative.  For such a count [get_maps]
    returns the first [count] map entries of the detail page joined by
    single spaces; a count beyond the number of entries gives all of
    them, and is no error. *)
Theorem get_maps_first_entries (href : string) (count : Z) (w w' : log)
    (soup : node) :
  scrape network BeautifulSoup (url self ++ href) "mapname" w
  = (Ok soup, w') ->
  (0 <= count)%Z ->
  get_maps network BeautifulSoup self href count w
  = (Ok (join " " (firstn (Z.to_nat count) (map_entries soup))), w')
  /\ ((Z.of_nat (length (map_entries soup)) <= count)%Z ->
      get_maps network BeautifulSoup self href count w
      = (Ok (join " " (map_entries soup)), w')).
Proof.
  intros Hs Hc. rewrite (get_maps_scraped _ count _ _ _ Hs).
  unfold slice_to. destruct (Z.leb_spec 0 count) as [_ | Hn]; [|lia].
  split; [reflexivity|].
  intros Hlen. rewrite firstn_all2; [reflexivity | lia].
Qed.

(** C7, with the scores as text.  Every record of the dictionary comes
    from a retained node of the page: its key is the text of the node's
    timestamp attribute, and that text is an integer literal; its score
    fields are text, the first and the last whitespace-delimited token of
    the node's score cell, kept as they are and not converted to
    integers. *)
Theorem scores_are_tokens (w w' : log) (d : odict MatchRecord)
    (k : string) (r : MatchRecord) :
  match_results network BeautifulSoup local_day self w = (Ok d, w') ->
  In (k, r) d ->
  exists soup w1 n blob,
    scrape network BeautifulSoup (url self ++ "/results") "result-con" w
    = (Ok soup, w1) /\
    In n (today_nodes local_day self soup) /\
    getitem n TIMESTAMP = Ok k /\
    (exists z, int k = Ok z) /\
    text_of false (select_one "result-score" n) = Ok blob /\
    first_token blob (team_one_score r) /\
    last_token blob (team_two_score r) /\
    is_token (team_one_score r) = true /\
    is_token (team_two_score r) = true.
Proof.
  intros H Hin. apply match_results_Ok in H as (soup & w1 & Hs & _ & Hc).
  apply collect_entries in Hc as (es & He & ->).
  apply In_fold_setitem in Hin as [[] | Hin].
  destruct (entries_In _ _ _ _ _ _ _ _ _ He Hin)
    as (n & wa & wb & Hn & Hr).
  pose proof (match_record_key _ _ _ _ _ _ _ _ Hr) as Hk.
  apply match_record_Ok in Hr
    as (blob & m & Hts & _ & _ & Hb & Hs1 & Hs2 & _).
  exists soup, w1, n, blob.
  split; [exact Hs|]. split; [exact Hn|]. split; [exact Hts|].
  split.
  { apply filter_In in Hn as [_ Hn].
    apply today_node_timestamp in Hn as [_ Hz]. now rewrite Hk. }
  split; [exact Hb|].
  split; [now apply split_first_token_inv|].
  split; [now apply split_last_token_inv|].
  split.
  - now apply item_first_In, split_tokens in Hs1.
  - now apply item_last_In, split_tokens in Hs2.
Qed.

(** The dictionary at the [return] of [get_results] in terms of the
    records of the retained nodes. *)
Lemma match_results_entries (w w1 w' : log) (soup : node)
    (d : odict MatchRecord) :
  scrape network BeautifulSoup (url self ++ "/results") "result-con" w
  = (Ok soup, w1) ->
  match_results network BeautifulSoup local_day self w = (Ok d, w') ->
  exists es,
    entries network BeautifulSoup self (today_nodes local_day self soup) w1
    = (Ok es, w') /\
    map fst es = map timestamp_of (today_nodes local_day self soup) /\
    d = odict_of_pairs es.
Proof.
  intros Hs H. apply match_results_Ok in H as (soup' & w1' & Hs' & _ & Hc).
  rewrite Hs in Hs'. injection Hs' as <- <-.
  apply collect_entries in Hc as (es & He & ->).
  exists es. split; [exact He|].
  split; [exact (entries_keys _ _ _ _ _ _ _ He) | reflexivity].
Qed.

(** C8. The dictionary that [get_results] builds holds the records of
    the retained nodes, inserted in document order: its keys are the
    timestamps of the nodes in the order of their first occurrence in the
    document (exactly the document order when no timestamp repeats), and
    under each key stands the record of the last node that carries it. *)
Theorem match_results_document_order (w w1 w' : log) (soup : node)
    (d : odict MatchRecord) :
  scrape network BeautifulSoup (url self ++ "/results") "result-con" w
  = (Ok soup, w1) ->
  match_results network BeautifulSoup local_day self w = (Ok d, w') ->
  exists es,
    entries network BeautifulSoup self (today_nodes local_day self soup) w1
    = (Ok es, w') /\
    map fst es = map timestamp_of (today_nodes local_day self soup) /\
    keys d = distinct (map fst es) /\
    (forall k, lookup k d = lookup_last k es) /\
    (NoDup (map fst es) -> d = es).
Proof.
  intros Hs H.
  destruct (match_results_entries _ _ _ _ _ Hs H) as (es & He & Hk & ->).
  exists es. split; [exact He|]. split; [exact Hk|].
  unfold odict_of_pairs. split; [|split].
  - now rewrite keys_fold_setitem.
  - intros k. rewrite lookup_fold_setitem. simpl.
    now destruct (lookup_last k es).
  - intros Hnd. now rewrite fold_setitem_fresh.
Qed.

(** C1, counting timestamps.  Where [get_results] returns, the
    dictionary has one entry for each distinct timestamp among the result
    containers of the document whose timestamp falls on the captured
    date: as many entries as there are such nodes when their timestamps
    differ from one another, and none when there is no such node. *)
Theorem match_results_size (w w1 w' : log) (soup : node)
    (d : odict MatchRecord) :
  scrape network BeautifulSoup (url self ++ "/results") "result-con" w
  = (Ok soup, w1) ->
  match_results network BeautifulSoup local_day self w = (Ok d, w') ->
  length d
  = length (nodup string_dec
              (map timestamp_of (today_nodes local_day self soup))) /\
  (NoDup (map timestamp_of (today_nodes local_day self soup)) ->
   length d = length (today_nodes local_day self soup)) /\
  (today_nodes local_day self soup = [] -> d = []).
Proof.
  intros Hs H.
  destruct (match_results_entries _ _ _ _ _ Hs H) as (es & He & Hk & ->).
  assert (L : length (odict_of_pairs es)
              = length (keys (odict_of_pairs es)))
    by (unfold keys; now rewrite length_map).
  split; [|split].
  - rewrite L. unfold odict_of_pairs. rewrite keys_fold_setitem. simpl.
    rewrite Hk. apply distinct_length.
  - intros Hnd. rewrite <- Hk in Hnd.
    rewrite (odict_of_pairs_NoDup _ Hnd).
    rewrite <- (length_map fst es), Hk. apply length_map.
  - intros E. rewrite E in Hk. now destruct es.
Qed.

End Operations.

(** *** JSON text *)

Lemma json_ind' (P : json -> Prop) :
  (forall s, P (JString s)) ->
  (forall members, Forall (fun kv => P (snd kv)) members ->
                   P (JObject members)) ->
  forall v, P v.
Proof.
  intros Hs Ho. fix IH 1. intros [s | members].
  - apply Hs.
  - apply Ho. induction members as [|[k x] members IHm]; constructor.
    + apply IH.
    + exact IHm.
Qed.

(** The decoder reads one escaped character back. *)
Lemma scanstring_escape_char (c : ascii) (tail s rest : string) :
  scanstring tail = Ok (s, rest) ->
  scanstring (escape_char c ++ tail) = Ok (String c s, rest).
Proof.
  intros H.
  destruct c as [[] [] [] [] [] [] [] []]; simpl; rewrite H; reflexivity.
Qed.

Lemma scanstring_escape (s rest : string) :
  scanstring (escape s ++ String quote rest) = Ok (s, rest).
Proof.
  induction s as [|c s IH]; simpl.
  - reflexivity.
  - rewrite append_assoc. now apply scanstring_escape_char.
Qed.

Lemma skip_ws_newline_indent (level : nat) (s : string) :
  skip_ws (newline_indent level ++ s) = skip_ws s.
Proof.
  unfold newline_indent. simpl.
  induction level as [|level IH]; simpl; [reflexivity | exact IH].
Qed.

Lemma skip_ws_quote (s : string) : skip_ws (String quote s) = String quote s.
Proof. reflexivity. Qed.

(** The text of a value begins with a quote or a brace. *)
Lemma iterencode_head (level : nat) (v : json) (tail : string) :
  exists c s,
    (iterencode level v ++ tail)%string = String c s /\ is_ws c = false /\
    ((N_of_ascii c =? 34)%N = true \/ (N_of_ascii c =? 123)%N = true).
Proof.
  destruct v as [s | [|kv members]]; simpl; eexists _, _;
    (split; [reflexivity | split; [reflexivity | auto]]).
Qed.

Lemma skip_ws_iterencode (level : nat) (v : json) (tail : string) :
  skip_ws (iterencode level v ++ tail) = (iterencode level v ++ tail)%string.
Proof.
  destruct (iterencode_head level v tail) as (c & s & -> & Hc & _).
  simpl. now rewrite Hc.
Qed.

Lemma join_cons (sep x : string) (l : list string) :
  l <> [] -> join sep (x :: l) = (x ++ sep ++ join sep l)%string.
Proof. destruct l; [contradiction | reflexivity]. Qed.

(** The text of an object that has members, cut after the opening quote
    of its first key. *)
Lemma join_members_tail (level : nat) (kv : string * json)
    (members : odict json) (tail : string) :
  (join ("," ++ newline_indent (S level))
     (map (fun kv =>
             encode_basestring_ascii (fst kv) ++ ":"
             ++ iterencode (S level) (snd kv)) (kv :: members))
   ++ newline_indent level ++ "}" ++ tail)%string
  = String quote (members_tail level (kv :: members) tail).
Proof.
  revert kv. induction members as [|kv' members IH]; intros kv.
  - cbn [map join members_tail]. unfold encode_basestring_ascii.
    generalize (iterencode (S level) (snd kv)) (escape (fst kv))
      (newline_indent level).
    intros ie ek nl. simpl. now rewrite !append_assoc.
  - rewrite (map_cons _ kv (kv' :: members)).
    rewrite join_cons by discriminate.
    rewrite !append_assoc. rewrite IH.
    cbn [members_tail]. unfold encode_basestring_ascii.
    generalize (members_tail level members tail)
      (iterencode (S level) (snd kv)) (escape (fst kv))
      (iterencode (S level) (snd kv')) (escape (fst kv'))
      (newline_indent (S level)).
    intros mt ie ek ie' ek' nl. simpl. now rewrite !append_assoc.
Qed.

Lemma iterencode_object (level : nat) (kv : string * json)
    (members : odict json) (tail : string) :
  (iterencode level (JObject (kv :: members)) ++ tail)%string
  = String "{" (newline_indent (S level)
                ++ String quote (members_tail level (kv :: members) tail)).
Proof.
  rewrite <- join_members_tail.
  cbn [iterencode].
  generalize (join ("," ++ newline_indent (S level))
                (map (fun kv0 : string * json =>
                        (encode_basestring_ascii (fst kv0) ++ ":"
                         ++ iterencode (S level) (snd kv0))%string)
                   (kv :: members)))
    (newline_indent (S level)) (newline_indent level).
  intros body nl1 nl0. simpl. now rewrite !append_assoc.
Qed.

(** One turn of the decoder's loop over the members of an object. *)
Lemma JSONObject_member (fuel : nat) (pairs : list (string * json))
    (k s1 rest : string) (v : json) :
  scan_once fuel (skip_ws s1) = Ok (v, rest) ->
  JSONObject (S fuel) pairs (escape k ++ String quote (String ":" s1))
  = match skip_ws rest with
    | String c2 s2 =>
        if (N_of_ascii c2 =? 125)%N
        then Ok (JObject (odict_of_pairs (pairs ++ [(k, v)])), s2)
        else if (N_of_ascii c2 =? 44)%N then
          match skip_ws s2 with
          | String c3 s3 =>
              if (N_of_ascii c3 =? 34)%N
              then JSONObject fuel (pairs ++ [(k, v)]) s3
              else Raise (JSONDecodeError
                     "Expecting property name enclosed in double quotes")
          | EmptyString =>
              Raise (JSONDecodeError
                "Expecting property name enclosed in double quotes")
          end
        else Raise (JSONDecodeError "Expecting ',' delimiter")
    | EmptyString => Raise (JSONDecodeError "Expecting ',' delimiter")
    end.
Proof.
  intros H. cbn [JSONObject]. rewrite scanstring_escape.
  cbn [rbind snd fst]. 
  change (skip_ws (String ":" s1)) with (String ":" s1).
  cbv beta iota. change (N_of_ascii ":" =? 58)%N with true. cbv iota.
  rewrite H. reflexivity.
Qed.

(** The loop reads the members of an object back, in order. *)
Lemma JSONObject_members (level : nat) (tail : string)
    (members : odict json) :
  Forall (fun kv => decodes (snd kv)) members ->
  forall kv fuel pairs,
    decodes (snd kv) ->
    weight_members (kv :: members) <= fuel ->
    JSONObject fuel pairs (members_tail level (kv :: members) tail)
    = Ok (JObject (odict_of_pairs
                     (pairs ++ map (fun kv => (fst kv, as_dict (snd kv)))
                                 (kv :: members))), tail).
Proof.
  induction 1 as [|kv' members Hkv' Hm IH]; intros kv fuel pairs Hkv Hfuel.
  - destruct fuel as [|fuel]; [simpl in Hfuel; lia|].
    cbn [members_tail].
    change (escape (fst kv) ++ String quote "" ++ ":"
            ++ iterencode (S level) (snd kv)
            ++ newline_indent level ++ "}" ++ tail)%string
      with (escape (fst kv)
            ++ String quote (String ":" (iterencode (S level) (snd kv)
                 ++ newline_indent level ++ String "}" tail)))%string.
    rewrite (JSONObject_member fuel pairs _ _
               (newline_indent level ++ String "}" tail) (as_dict (snd kv))).
    + rewrite skip_ws_newline_indent. reflexivity.
    + rewrite skip_ws_iterencode. apply Hkv. simpl in Hfuel. lia.
  - destruct fuel as [|fuel]; [simpl in Hfuel; lia|].
    change (members_tail level (kv :: kv' :: members) tail)
      with (escape (fst kv)
            ++ String quote
                 (String ":"
                    (iterencode (S level) (snd kv)
                     ++ String ","
                          (newline_indent (S level)
                           ++ String quote
                                (members_tail level (kv' :: members)
                                   tail)))))%string.
    rewrite (JSONObject_member fuel pairs _ _
               (String "," (newline_indent (S level)
                  ++ String quote (members_tail level (kv' :: members) tail)))
               (as_dict (snd kv))).
    + change (skip_ws (String "," ?s)) with (String "," s).
      cbv beta iota. 
      change (N_of_ascii "," =? 125)%N with false.
      change (N_of_ascii "," =? 44)%N with true. cbv iota.
      rewrite skip_ws_newline_indent, skip_ws_quote.
      change (N_of_ascii quote =? 34)%N with true. cbv iota.
      rewrite IH.
      * rewrite <- app_assoc. reflexivity.
      * exact Hkv'.
      * simpl in Hfuel |- *. lia.
    + rewrite skip_ws_iterencode. apply Hkv. simpl in Hfuel. lia.
Qed.

(** The decoder reads the text of a value back, given fuel for its
    depth. *)
Lemma scan_once_iterencode (v : json) : decodes v.
Proof.
  induction v as [s | members IH] using json_ind';
    intros level fuel tail Hfuel.
  - destruct fuel as [|fuel]; [simpl in Hfuel; lia|].
    cbn [iterencode]. unfold encode_basestring_ascii.
    change (scan_once (S fuel)
              (String quote (escape s ++ String quote "") ++ tail))
      with (r <- scanstring ((escape s ++ String quote "") ++ tail) ;;
            Ok (JString (fst r), snd r))%res.
    rewrite append_assoc. simpl append at 2.
    change (String quote "" ++ tail)%string with (String quote tail).
    now rewrite scanstring_escape.
  - destruct fuel as [|fuel]; [simpl in Hfuel; lia|].
    destruct members as [|kv members].
    + reflexivity.
    + rewrite iterencode_object.
      inversion IH as [|? ? Hkv Hm]; subst.
      cbn [scan_once].
      change (N_of_ascii "{" =? 34)%N with false.
      change (N_of_ascii "{" =? 123)%N with true. cbv iota.
      rewrite skip_ws_newline_indent, skip_ws_quote.
      change (N_of_ascii quote =? 125)%N with false.
      change (N_of_ascii quote =? 34)%N with true. cbv iota.
      rewrite (JSONObject_members level tail members Hm kv fuel [] Hkv).
      * reflexivity.
      * simpl in Hfuel. unfold weight_members. simpl. lia.
Qed.

(** The weight of a value is at most the length of its text. *)
Lemma weight_length (v : json) :
  forall level, weight v <= String.length (iterencode level v).
Proof.
  induction v as [s | members IH] using json_ind'; intros level.
  - simpl. lia.
  - destruct members as [|kv members]; [simpl; lia|].
    rewrite <- (append_nil_r (iterencode level (JObject (kv :: members)))).
    rewrite iterencode_object. cbn [String.length].
    rewrite length_append. cbn [String.length].
    change (weight (JObject (kv :: members)))
      with (S (weight_members (kv :: members))).
    enough (E : weight_members (kv :: members)
                <= String.length (members_tail level (kv :: members) ""))
      by lia.
    clear - IH. revert kv IH.
    induction members as [|kv' members IHm]; intros kv IH;
      inversion IH as [|? ? Hkv Hm]; subst.
    + cbn [members_tail weight_members fold_right].
      rewrite !length_append. specialize (Hkv (S level)).
      cbn [String.length]. lia.
    + change (members_tail level (kv :: kv' :: members) "")
        with (escape (fst kv) ++ String quote "" ++ ":"
              ++ iterencode (S level) (snd kv) ++ ","
              ++ newline_indent (S level)
              ++ String quote (members_tail level (kv' :: members) ""))%string.
      rewrite !length_append. cbn [String.length].
      specialize (IHm kv' Hm). specialize (Hkv (S level)).
      change (weight_members (kv :: kv' :: members))
        with (S (weight (snd kv) + weight_members (kv' :: members))).
      lia.
Qed.

(** [loads] after [dumps] gives the value back, every object as
    [OrderedDict] makes it. *)
Lemma loads_dumps (v : json) : loads (dumps v) = Ok (as_dict v).
Proof.
  unfold loads, dumps.
  pose proof (skip_ws_iterencode 0 v "") as E.
  rewrite append_nil_r in E. rewrite E.
  pose proof (scan_once_iterencode v 0 (S (String.length (iterencode 0 v))) "")
    as H.
  rewrite append_nil_r in H. rewrite H.
  - reflexivity.
  - pose proof (weight_length v 0). lia.
Qed.

Lemma as_dict_to_json (d : odict MatchRecord) :
  NoDup (keys d) -> as_dict (to_json d) = to_json d.
Proof.
  intros H. unfold to_json. cbn [as_dict]. f_equal.
  rewrite map_map. cbn [fst snd].
  rewrite odict_of_pairs_NoDup.
  - apply map_ext. intros [k r]. reflexivity.
  - rewrite map_map. exact H.
Qed.

Section RoundTrip.

Variable network : log -> string -> result response.
Variable BeautifulSoup : string -> string -> node.
Variable local_day : Z -> result string.
Variable self : CounterScrape.

(** The dictionary that [get_results] builds has no key twice. *)
Lemma match_results_NoDup (w w' : log) (d : odict MatchRecord) :
  match_results network BeautifulSoup local_day self w = (Ok d, w') ->
  NoDup (keys d).
Proof.
  intros H. apply match_results_Ok in H as (soup & w1 & _ & _ & Hc).
  apply collect_entries in Hc as (es & _ & ->).
  apply fold_setitem_NoDup.
Qed.

(** C4. Deserializing the serialized form of a results dictionary gives
    an ordered mapping with the keys of the dictionary in the same order,
    and under each key a mapping of the six fields of the record, in the
    order of the dictionary display, to the strings the record holds.
    [results_dict] returns this mapping whenever [get_results] returns. *)
Theorem results_round_trip (d : odict MatchRecord) :
  NoDup (keys d) ->
  exists members,
    loads (dumps (to_json d)) = Ok (JObject members) /\
    members
    = map (fun kv =>
             (fst kv,
              JObject [("team_one", JString (team_one (snd kv)));
                       ("team_one_score", JString (team_one_score (snd kv)));
                       ("team_two", JString (team_two (snd kv)));
                       ("team_two_score", JString (team_two_score (snd kv)));
                       ("event", JString (event (snd kv)));
                       ("maps", JString (maps (snd kv)))])) d /\
    keys members = keys d /\
    (forall k r,
        lookup k d = Some r ->
        lookup k members
        = Some (JObject [("team_one", JString (team_one r));
                         ("team_one_score", JString (team_one_score r));
                         ("team_two", JString (team_two r));
                         ("team_two_score", JString (team_two_score r));
                         ("event", JString (event r));
                         ("maps", JString (maps r))])) /\
    forall w w',
      match_results network BeautifulSoup local_day self w = (Ok d, w') ->
      get_results network BeautifulSoup local_day self w
      = (Ok (dumps (to_json d)), w') /\
      results_dict network BeautifulSoup local_day self w
      = (Ok (JObject members), w').
Proof.
  intros Hd.
  assert (R : loads (dumps (to_json d)) = Ok (to_json d))
    by (rewrite loads_dumps; f_equal; now apply as_dict_to_json).
  eexists. split; [exact R|]. split; [reflexivity|].
  split; [|split].
  - unfold keys. rewrite map_map. reflexivity.
  - intros k r. clear. induction d as [|[k' r'] d IH]; [discriminate|].
    simpl. destruct (String.eqb k' k); [now intros [= ->] | exact IH].
  - intros w w' H.
    assert (G : get_results network BeautifulSoup local_day self w
                = (Ok (dumps (to_json d)), w'))
      by (unfold get_results; now rewrite (bind_step _ _ _ _ _ H)).
    split; [exact G|].
    unfold results_dict. rewrite (bind_step _ _ _ _ _ G).
    unfold lift. now rewrite R.
Qed.

End RoundTrip.

(** *** The theorems at work on a concrete site *)

Lemma check_match_date_guard_witness :
  ~ (tag_name Fixture.team_cell = Some "div" /\
     In "result-con" (get_class Fixture.team_cell)) /\
  getitem Fixture.team_cell TIMESTAMP = Raise (KeyError TIMESTAMP) /\
  check_match_date Fixture.utc_day Fixture.self Fixture.team_cell = Ok false.
Proof.
  assert (H : ~ (tag_name Fixture.team_cell = Some "div" /\
                 In "result-con" (get_class Fixture.team_cell)))
    by (intros [H _]; discriminate H).
  split; [exact H|]. split; [reflexivity|].
  exact (check_match_date_guard Fixture.utc_day Fixture.self _ H).
Defined.




Lemma unknown_map_code_aborts_witness :
  lookup "d2" MAPS = None /\
  match_results (Fixture.network Fixture.unknown_page)
    (Fixture.BeautifulSoup Fixture.unknown_page) Fixture.utc_day Fixture.self
    []
  = (Raise (KeyError "d2"), [Fixture.results_url]).
Proof.
  split; [reflexivity|].
  destruct (unknown_map_code_aborts
              (Fixture.network Fixture.unknown_page)
              (Fixture.BeautifulSoup Fixture.unknown_page)
              Fixture.utc_day Fixture.self [] [Fixture.results_url]
              (Fixture.document Fixture.unknown_page)
              [Fixture.astralis] [Fixture.fnatic] Fixture.virtus "d2"
              eq_refl eq_refl eq_refl eq_refl eq_refl) as [_ H].
  exact (H [("1500000000000", Fixture.astralis_record)] [Fixture.results_url]
           "Virtus.pro" "mousesports" "16 : 14" "16" "14" "ESL One Cologne"
           eq_refl eq_refl eq_refl eq_refl eq_refl eq_refl eq_refl).
Defined.

(** C6 does not hold at a negative count: the slice then drops entries
    from the end, and what is left of the three entries of the page is not
    the empty list of their first [-1]. *)
Lemma get_maps_negative_count :
  map_entries Fixture.sk_detail = ["Cache"; "Mirage"; "Inferno"] /\
  get_maps (Fixture.network []) (Fixture.BeautifulSoup []) Fixture.self
    "/matches/5/sk-vs-faze" (-1) []
  = (Ok "Cache Mirage", [Fixture.sk_url]) /\
  get_maps (Fixture.network []) (Fixture.BeautifulSoup []) Fixture.self
    "/matches/5/sk-vs-faze" (-1) []
  <> (Ok (join " " (firstn (Z.to_nat (-1)) (map_entries Fixture.sk_detail))),
      [Fixture.sk_url]).
Proof.
  split; [reflexivity|]. split; [reflexivity|]. discriminate.
Defined.

Lemma get_maps_first_entries_witness :
  (0 <= 7)%Z /\
  (Z.of_nat (length (map_entries Fixture.sk_detail)) <= 7)%Z /\
  get_maps (Fixture.network []) (Fixture.BeautifulSoup []) Fixture.self
    "/matches/5/sk-vs-faze" 7 []
  = (Ok "Cache Mirage Inferno", [Fixture.sk_url]).
Proof.
  assert (H0 : (0 <= 7)%Z) by lia.
  assert (H1 : (Z.of_nat (length (map_entries Fixture.sk_detail)) <= 7)%Z)
    by (simpl; lia).
  split; [exact H0|]. split; [exact H1|].
  exact (proj2 (get_maps_first_entries (Fixture.network [])
                  (Fixture.BeautifulSoup []) Fixture.self
                  "/matches/5/sk-vs-faze" 7 [] [Fixture.sk_url]
                  Fixture.sk_detail eq_refl H0) H1).
Defined.

(** C7 does not hold on a forfeit: the score fields of the record are the
    words of the score cell, and they are not integers. *)
Lemma scores_are_not_integers :
  match_results (Fixture.network Fixture.forfeit_page)
    (Fixture.BeautifulSoup Fixture.forfeit_page) Fixture.utc_day Fixture.self
    []
  = (Ok [("1500010800000", Fixture.forfeit_record)], [Fixture.results_url]) /\
  team_one_score Fixture.forfeit_record = "W" /\
  int (team_one_score Fixture.forfeit_record) = Raise (ValueError "W") /\
  team_two_score Fixture.forfeit_record = "FF" /\
  int (team_two_score Fixture.forfeit_record) = Raise (ValueError "FF").
Proof.
  split; [vm_compute; reflexivity|]. repeat split; reflexivity.
Defined.

Lemma scores_are_tokens_witness :
  match_results (Fixture.network Fixture.forfeit_page)
    (Fixture.BeautifulSoup Fixture.forfeit_page) Fixture.utc_day Fixture.self
    []
  = (Ok [("1500010800000", Fixture.forfeit_record)], [Fixture.results_url]) /\
  getitem Fixture.forfeit TIMESTAMP = Ok "1500010800000" /\
  (exists z, int "1500010800000" = Ok z) /\
  first_token "W - FF" (team_one_score Fixture.forfeit_record) /\
  last_token "W - FF" (team_two_score Fixture.forfeit_record).
Proof.
  assert (Hrun : match_results (Fixture.network Fixture.forfeit_page)
                   (Fixture.BeautifulSoup Fixture.forfeit_page)
                   Fixture.utc_day Fixture.self []
                 = (Ok [("1500010800000", Fixture.forfeit_record)],
                    [Fixture.results_url]))
    by (vm_compute; reflexivity).
  split; [exact Hrun|].
  destruct (scores_are_tokens (Fixture.network Fixture.forfeit_page)
              (Fixture.BeautifulSoup Fixture.forfeit_page) Fixture.utc_day
              Fixture.self [] [Fixture.results_url]
              [("1500010800000", Fixture.forfeit_record)]
              "1500010800000" Fixture.forfeit_record Hrun
              (or_introl eq_refl))
    as (soup & w1 & n & blob & Hs & Hn & Hk & Hz & Hb & H1 & H2 & _).
  vm_compute in Hs. injection Hs as <- _.
  vm_compute in Hn. destruct Hn as [<- | []].
  vm_compute in Hb. injection Hb as <-.
  split; [exact Hk|]. split; [exact Hz|]. split; [exact H1 | exact H2].
Defined.

Lemma match_results_document_order_witness :
  map timestamp_of
    (today_nodes Fixture.utc_day Fixture.self
       (Fixture.document Fixture.repeat_page))
  = ["1500000000000"; "1499990400000"; "1500000000000"] /\
  match_results (Fixture.network Fixture.repeat_page)
    (Fixture.BeautifulSoup Fixture.repeat_page) Fixture.utc_day Fixture.self
    []
  = (Ok [("1500000000000", Fixture.cloud9_record);
         ("1499990400000", Fixture.fnatic_record)], [Fixture.results_url]) /\
  keys [("1500000000000", Fixture.cloud9_record);
        ("1499990400000", Fixture.fnatic_record)]
  = distinct ["1500000000000"; "1499990400000"; "1500000000000"] /\
  lookup "1500000000000"
    [("1500000000000", Fixture.cloud9_record);
     ("1499990400000", Fixture.fnatic_record)]
  = lookup_last "1500000000000"
      [("1500000000000", Fixture.astralis_record);
       ("1499990400000", Fixture.fnatic_record);
       ("1500000000000", Fixture.cloud9_record)].
Proof.
  assert (Hs : scrape (Fixture.network Fixture.repeat_page)
                 (Fixture.BeautifulSoup Fixture.repeat_page)
                 (url Fixture.self ++ "/results") "result-con" []
               = (Ok (Fixture.document Fixture.repeat_page),
                  [Fixture.results_url]))
    by (vm_compute; reflexivity).
  assert (Hrun : match_results (Fixture.network Fixture.repeat_page)
                   (Fixture.BeautifulSoup Fixture.repeat_page)
                   Fixture.utc_day Fixture.self []
                 = (Ok [("1500000000000", Fixture.cloud9_record);
                        ("1499990400000", Fixture.fnatic_record)],
                    [Fixture.results_url]))
    by (vm_compute; reflexivity).
  split; [vm_compute; reflexivity|]. split; [exact Hrun|].
  destruct (match_results_document_order
              (Fixture.network Fixture.repeat_page)
              (Fixture.BeautifulSoup Fixture.repeat_page)
              Fixture.utc_day Fixture.self [] [Fixture.results_url]
              [Fixture.results_url] (Fixture.document Fixture.repeat_page)
              [("1500000000000", Fixture.cloud9_record);
               ("1499990400000", Fixture.fnatic_record)] Hs Hrun)
    as (es & He & _ & Hk & Hl & _).
  vm_compute in He. injection He as <-.
  split; [exact Hk | exact (Hl "1500000000000")].
Defined.

(** C1 does not hold where two matches of the day carry the same
    timestamp: two nodes are retained and the dictionary has one entry. *)
Lemma duplicate_timestamp_loses_an_entry :
  today_nodes Fixture.utc_day Fixture.self
    (Fixture.document Fixture.twin_page)
  = [Fixture.astralis; Fixture.cloud9] /\
  match_results (Fixture.network Fixture.twin_page)
    (Fixture.BeautifulSoup Fixture.twin_page) Fixture.utc_day Fixture.self []
  = (Ok [("1500000000000", Fixture.cloud9_record)], [Fixture.results_url]) /\
  length [("1500000000000", Fixture.cloud9_record)]
  <> length (today_nodes Fixture.utc_day Fixture.self
               (Fixture.document Fixture.twin_page)).
Proof.
  split; [vm_compute; reflexivity|]. split; [vm_compute; reflexivity|].
  vm_compute. discriminate.
Defined.

Lemma match_results_size_witness :
  match_results (Fixture.network Fixture.day_page)
    (Fixture.BeautifulSoup Fixture.day_page) Fixture.utc_day Fixture.self []
  = (Ok [("1500000000000", Fixture.astralis_record);
         ("1499990400000", Fixture.fnatic_record)], [Fixture.results_url]) /\
  today_nodes Fixture.utc_day Fixture.self (Fixture.document Fixture.day_page)
  = [Fixture.astralis; Fixture.fnatic] /\
  length [("1500000000000", Fixture.astralis_record);
          ("1499990400000", Fixture.fnatic_record)]
  = length (today_nodes Fixture.utc_day Fixture.self
              (Fixture.document Fixture.day_page)).
Proof.
  assert (Hs : scrape (Fixture.network Fixture.day_page)
                 (Fixture.BeautifulSoup Fixture.day_page)
                 (url Fixture.self ++ "/results") "result-con" []
               = (Ok (Fixture.document Fixture.day_page),
                  [Fixture.results_url]))
    by (vm_compute; reflexivity).
  assert (Hrun : match_results (Fixture.network Fixture.day_page)
                   (Fixture.BeautifulSoup Fixture.day_page)
                   Fixture.utc_day Fixture.self []
                 = (Ok [("1500000000000", Fixture.astralis_record);
                        ("1499990400000", Fixture.fnatic_record)],
                    [Fixture.results_url]))
    by (vm_compute; reflexivity).
  assert (Ht : today_nodes Fixture.utc_day Fixture.self
                 (Fixture.document Fixture.day_page)
               = [Fixture.astralis; Fixture.fnatic])
    by (vm_compute; reflexivity).
  split; [exact Hrun|]. split; [exact Ht|].
  apply (match_results_size (Fixture.network Fixture.day_page)
           (Fixture.BeautifulSoup Fixture.day_page)
           Fixture.utc_day Fixture.self [] [Fixture.results_url]
           [Fixture.results_url] (Fixture.document Fixture.day_page)
           _ Hs Hrun).
  rewrite Ht. vm_compute. repeat constructor; simpl; intuition discriminate.
Defined.

Lemma results_round_trip_witness :
  NoDup (keys [("1500000000000", Fixture.astralis_record);
               ("1499990400000", Fixture.fnatic_record)]) /\
  match_results (Fixture.network Fixture.day_page)
    (Fixture.BeautifulSoup Fixture.day_page) Fixture.utc_day Fixture.self []
  = (Ok [("1500000000000", Fixture.astralis_record);
         ("1499990400000", Fixture.fnatic_record)], [Fixture.results_url]) /\
  results_dict (Fixture.network Fixture.day_page)
    (Fixture.BeautifulSoup Fixture.day_page) Fixture.utc_day Fixture.self []
  = (Ok (JObject
           [("1500000000000",
             JObject [("team_one", JString "Astralis");
                      ("team_one_score", JString "16");
                      ("team_two", JString "NaVi");
                      ("team_two_score", JString "9");
                      ("event", JString "ESL Pro League");
                      ("maps", JString "Mirage")]);
            ("1499990400000",
             JObject [("team_one", JString "fnatic");
                      ("team_one_score", JString "16-9");
                      ("team_two", JString "NiP");
                      ("team_two_score", JString "16-9");
                      ("event", JString "DreamHack Open");
                      ("maps", JString "Inferno")])]),
     [Fixture.results_url]).
Proof.
  assert (Hd : NoDup (keys [("1500000000000", Fixture.astralis_record);
                            ("1499990400000", Fixture.fnatic_record)])).
  { simpl. repeat constructor; simpl; intuition discriminate. }
  assert (Hrun : match_results (Fixture.network Fixture.day_page)
                   (Fixture.BeautifulSoup Fixture.day_page)
                   Fixture.utc_day Fixture.self []
                 = (Ok [("1500000000000", Fixture.astralis_record);
                        ("1499990400000", Fixture.fnatic_record)],
                    [Fixture.results_url]))
    by (vm_compute; reflexivity).
  split; [exact Hd|]. split; [exact Hrun|].
  destruct (results_round_trip (Fixture.network Fixture.day_page)
              (Fixture.BeautifulSoup Fixture.day_page)
              Fixture.utc_day Fixture.self
              [("1500000000000", Fixture.astralis_record);
               ("1499990400000", Fixture.fnatic_record)] Hd)
    as (members & _ & Hm & _ & _ & Hw).
  rewrite (proj2 (Hw [] [Fixture.results_url] Hrun)), Hm. reflexivity.
Defined.

(** *** Errors before a record *)

Section Failures.

Variable network : log -> string -> result response.
Variable BeautifulSoup : string -> string -> node.
Variable local_day : Z -> result string.
Variable self : CounterScrape.

(** [int] skips the whitespace of a numeric literal (tab to carriage
    return, space, U+0085, U+00A0) and no other character: the
    information separators U+001C..U+001F, which [str.split] treats as
    whitespace, make [int] raise. *)
Lemma int_separator_raises :
  int (String "028" "15") = Raise (ValueError (String "028" "15")) /\
  int (String "031" "15") = Raise (ValueError (String "031" "15")) /\
  int (String "009" "15 ") = Ok 15%Z /\
  split (String "028" "15") = ["15"].
Proof. repeat split. Qed.

Lemma int_literal_None (s : string) :
  int_literal s = None -> int s = Raise (ValueError s).
Proof. unfold int. now intros ->. Qed.

(** X1. A result container is dated by its timestamp attribute: without
    the attribute [check_match_date] raises [KeyError], with a value that
    is not an integer literal it raises [ValueError], and with the
    literal of an integer it compares the day the clock gives for that
    integer with the captured date. *)
Theorem check_match_date_result_con (tag : node) :
  is_result_con tag = true ->
  (lookup TIMESTAMP (tag_attrs tag) = None ->
   check_match_date local_day self tag = Raise (KeyError TIMESTAMP)) /\
  (forall ts,
      lookup TIMESTAMP (tag_attrs tag) = Some ts ->
      int_literal ts = None ->
      check_match_date local_day self tag = Raise (ValueError ts)) /\
  (forall ts z e,
      lookup TIMESTAMP (tag_attrs tag) = Some ts ->
      int_literal ts = Some z ->
      local_day z = Raise e ->
      check_match_date local_day self tag = Raise e) /\
  (forall ts z day,
      lookup TIMESTAMP (tag_attrs tag) = Some ts ->
      int_literal ts = Some z ->
      local_day z = Ok day ->
      check_match_date local_day self tag
      = Ok (String.eqb day (current_date self))).
Proof.
  intros Hr. unfold check_match_date, getitem, convert_timestamp, int.
  rewrite Hr. unfold TIMESTAMP. simpl.
  repeat split.
  - now intros ->.
  - intros ts -> Hi. simpl. now rewrite Hi.
  - intros ts z e -> Hi Hd. simpl. rewrite Hi. simpl. now rewrite Hd.
  - intros ts z day -> Hi Hd. simpl. rewrite Hi. simpl. now rewrite Hd.
Qed.

Lemma find_all_matching_Raise (f : node -> result bool) (l : list node)
    (n : node) :
  In n l -> is_tag n = true -> (exists e, f n = Raise e) ->
  exists e, find_all_matching f l = Raise e.
Proof.
  intros Hin Htag [e He]. induction l as [|n' l IH]; [contradiction|].
  simpl. destruct Hin as [-> | Hin].
  - rewrite Htag, He. now exists e.
  - destruct (IH Hin) as [e' He'].
    destruct (is_tag n'); [|now exists e'].
    destruct (f n') as [b | e'']; simpl; [|now exists e''].
    rewrite He'. now exists e'.
Qed.

(** X2. One result container anywhere on the page whose timestamp
    attribute is missing or is not an integer literal makes
    [get_results] raise while it filters the page, whatever day the
    other matches are of: no record is extracted and no detail page is
    requested. *)
Theorem malformed_timestamp_aborts (w w1 : log) (soup n : node) :
  scrape network BeautifulSoup (url self ++ "/results") "result-con" w
  = (Ok soup, w1) ->
  In n (descendants soup) ->
  is_result_con n = true ->
  lookup TIMESTAMP (tag_attrs n) = None \/
  int_literal (timestamp_of n) = None ->
  exists e,
    match_results network BeautifulSoup local_day self w = (Raise e, w1) /\
    get_results network BeautifulSoup local_day self w = (Raise e, w1).
Proof.
  intros Hs Hin Hr Hbad.
  assert (Hc : exists e, check_match_date local_day self n = Raise e).
  { unfold check_match_date, getitem, convert_timestamp, int.
    rewrite Hr. simpl. unfold timestamp_of, TIMESTAMP in Hbad.
    destruct (lookup "data-zonedgrouping-entry-unix" (tag_attrs n))
      as [ts|]; simpl.
    - destruct Hbad as [Hbad | Hbad]; [discriminate|].
      rewrite Hbad. simpl. now eexists.
    - now eexists. }
  destruct (find_all_matching_Raise _ _ _ Hin
              (is_result_con_is_tag _ Hr) Hc) as [e He].
  exists e.
  assert (Hm : match_results network BeautifulSoup local_day self w
               = (Raise e, w1)).
  { unfold match_results. rewrite (bind_step _ _ _ _ _ Hs).
    unfold bind, lift, find_all_fn. now rewrite He. }
  split; [exact Hm|]. unfold get_results. now rewrite (bind_Raise _ _ _ _ _ Hm).
Qed.

(** X3. When the results page is answered with a status from 400 to 599,
    [get_results] and [results_dict] raise [HTTPError] with that status
    after this one request. *)
Theorem results_page_http_error (w : log) (r : response) :
  network w (url self ++ "/results") = Ok r ->
  (400 <= status_code r < 600)%Z ->
  get_results network BeautifulSoup local_day self w
  = (Raise (HTTPError (status_code r)), w ++ [(url self ++ "/results")%string])
  /\
  results_dict network BeautifulSoup local_day self w
  = (Raise (HTTPError (status_code r)), w ++ [(url self ++ "/results")%string]).
Proof.
  intros Hn Hst.
  assert (Hs : scrape network BeautifulSoup (url self ++ "/results")
                 "result-con" w
               = (Raise (HTTPError (status_code r)),
                  w ++ [(url self ++ "/results")%string])).
  { unfold scrape, bind, session_get, lift, raise_for_status. rewrite Hn.
    destruct (Z.leb_spec 400 (status_code r)); [|lia].
    destruct (Z.ltb_spec (status_code r) 600); [|lia]. reflexivity. }
  assert (Hg : get_results network BeautifulSoup local_day self w
               = (Raise (HTTPError (status_code r)),
                  w ++ [(url self ++ "/results")%string])).
  { unfold get_results, match_results.
    rewrite (bind_Raise _ _ _ _ _ (bind_Raise _ _ _ _ _ Hs)). reflexivity. }
  split; [exact Hg|]. unfold results_dict.
  now rewrite (bind_Raise _ _ _ _ _ Hg).
Qed.

(** X4. A node that lacks one of the five elements that [get_results]
    reads text from raises [AttributeError] and makes no request: the
    team cells and the score cell in any case, the event name and the
    maps text when the score cell holds a token. *)
Theorem missing_element_raises (n : node) (w : log) (k : string) :
  getitem n TIMESTAMP = Ok k ->
  select_one "team1" n = None \/
  select_one "team2" n = None \/
  select_one "result-score" n = None \/
  ((select_one "event-name" n = None \/ select_one "map-text" n = None) /\
   forall x, select_one "result-score" n = Some x ->
             split (get_text x) <> []) ->
  match_record network BeautifulSoup self n w = (Raise AttributeError, w).
Proof.
  unfold TIMESTAMP. intros Hk H.
  unfold match_record, bind, lift. rewrite Hk.
  destruct (select_one "team1" n) as [x1|]; [|reflexivity].
  destruct (select_one "team2" n) as [x2|]; [|reflexivity].
  destruct (select_one "result-score" n) as [x3|]; [|reflexivity].
  destruct H as [H | [H | [H | [H Hx]]]]; try discriminate.
  simpl. specialize (Hx x3 eq_refl).
  destruct (split (get_text x3)) as [|t l]; [contradiction|]. simpl.
  destruct (select_one "event-name" n) as [x4|]; [|reflexivity].
  destruct (select_one "map-text" n) as [x5|]; [|reflexivity].
  destruct H; discriminate.
Qed.

(** X5. A score cell without any token, empty or of whitespace only,
    raises [IndexError]: the match has no record and the run ends. *)
Theorem blank_score_raises (n : node) (w : log) (k t1 t2 blob : string) :
  getitem n TIMESTAMP = Ok k ->
  text_of true (select_one "team1" n) = Ok t1 ->
  text_of true (select_one "team2" n) = Ok t2 ->
  text_of false (select_one "result-score" n) = Ok blob ->
  all_space blob = true ->
  match_record network BeautifulSoup self n w = (Raise IndexError, w).
Proof.
  unfold TIMESTAMP. intros Hk H1 H2 Hb Hs.
  unfold match_record, bind, lift. rewrite Hk, H1, H2, Hb.
  unfold split. now rewrite (split_all_space _ Hs).
Qed.

End Failures.

(** *** The two branches of the maps field *)

Section Branches.

Variable network : log -> string -> result response.
Variable BeautifulSoup : string -> string -> node.
Variable local_day : Z -> result string.
Variable self : CounterScrape.

(** X6. A raw maps text that does not contain [bo] and is a key of [MAPS]
    is replaced by the name the table gives for it, and the record is
    made without any request. *)
Theorem known_code_resolves (n : node) (w : log)
    (k t1 t2 blob s1 s2 ev m label : string) :
  getitem n TIMESTAMP = Ok k ->
  text_of true (select_one "team1" n) = Ok t1 ->
  text_of true (select_one "team2" n) = Ok t2 ->
  text_of false (select_one "result-score" n) = Ok blob ->
  item_first (split blob) = Ok s1 ->
  item_last (split blob) = Ok s2 ->
  text_of false (select_one "event-name" n) = Ok ev ->
  text_of false (select_one "map-text" n) = Ok m ->
  contains "bo" m = false ->
  lookup m MAPS = Some label ->
  match_record network BeautifulSoup self n w
  = (Ok (k, {| team_one := t1; team_one_score := s1;
               team_two := t2; team_two_score := s2;
               event := ev; maps := label |}), w).
Proof.
  intros Hk H1 H2 Hb Hs1 Hs2 He Hm Hbo Hl.
  rewrite (match_record_fields _ _ _ n w k t1 t2 blob s1 s2 ev m)
    by assumption.
  unfold maps_field. rewrite Hbo. unfold lift, subscript. now rewrite Hl.
Qed.

(** X7. In a series the link and the two scores are read before the
    detail page is requested: a node without a link raises [TypeError],
    a link without [href] raises [KeyError], and a score token that is
    not an integer literal raises [ValueError], each without a request. *)
Theorem series_errors_before_fetch (n : node) (w : log)
    (k t1 t2 blob s1 s2 ev m : string) :
  getitem n TIMESTAMP = Ok k ->
  text_of true (select_one "team1" n) = Ok t1 ->
  text_of true (select_one "team2" n) = Ok t2 ->
  text_of false (select_one "result-score" n) = Ok blob ->
  item_first (split blob) = Ok s1 ->
  item_last (split blob) = Ok s2 ->
  text_of false (select_one "event-name" n) = Ok ev ->
  text_of false (select_one "map-text" n) = Ok m ->
  contains "bo" m = true ->
  (select_one "a-reset" n = None ->
   match_record network BeautifulSoup self n w = (Raise TypeError, w)) /\
  (forall a,
      select_one "a-reset" n = Some a ->
      lookup "href" (tag_attrs a) = None ->
      match_record network BeautifulSoup self n w
      = (Raise (KeyError "href"), w)) /\
  (forall href,
      item_of (select_one "a-reset" n) "href" = Ok href ->
      int_literal s1 = None ->
      match_record network BeautifulSoup self n w
      = (Raise (ValueError s1), w)) /\
  (forall href a,
      item_of (select_one "a-reset" n) "href" = Ok href ->
      int s1 = Ok a ->
      int_literal s2 = None ->
      match_record network BeautifulSoup self n w
      = (Raise (ValueError s2), w)).
Proof.
  intros Hk H1 H2 Hb Hs1 Hs2 He Hm Hbo.
  rewrite (match_record_fields _ _ _ n w k t1 t2 blob s1 s2 ev m)
    by assumption.
  unfold maps_field. rewrite Hbo. unfold bind, lift.
  repeat split.
  - now intros ->.
  - intros a -> Ha. simpl. unfold getitem. now rewrite Ha.
  - intros href -> Hi. now rewrite (int_literal_None _ Hi).
  - intros href a -> -> Hi. now rewrite (int_literal_None _ Hi).
Qed.

(** The requests of one record: the detail page of a series, none for
    another match. *)
Lemma match_record_log (n : node) (w w' : log) (entry : string * MatchRecord) :
  match_record network BeautifulSoup self n w = (Ok entry, w') ->
  w' = w ++ (if is_series n then [detail_url self n] else []).
Proof.
  destruct entry as [k r]. intros H.
  apply match_record_Ok in H
    as (blob & m & _ & _ & _ & _ & _ & _ & _ & Hm & Hf).
  unfold is_series, detail_url. rewrite Hm.
  unfold maps_field in Hf. destruct (contains "bo" m).
  - apply bind_Ok in Hf as (href & w1 & Hh & Hf).
    apply lift_Ok in Hh as [Hh ->].
    apply bind_Ok in Hf as (a & w1 & Ha & Hf).
    apply lift_Ok in Ha as [Ha ->].
    apply bind_Ok in Hf as (b & w1 & Hb & Hf).
    apply lift_Ok in Hb as [Hb ->].
    rewrite Hh.
    pose proof (get_maps_log network BeautifulSoup self href (a + b) w) as L.
    rewrite Hf in L. exact L.
  - apply lift_Ok in Hf as [_ ->]. now rewrite app_nil_r.
Qed.

Lemma entries_log (l : list node) (w w' : log)
    (es : list (string * MatchRecord)) :
  entries network BeautifulSoup self l w = (Ok es, w') ->
  w' = w ++ map (detail_url self) (filter is_series l).
Proof.
  revert w es. induction l as [|n l IH]; intros w es; simpl.
  - unfold ret. intros [= <- <-]. now rewrite app_nil_r.
  - intros H. apply bind_Ok in H as (entry & w1 & Hn & H).
    apply bind_Ok in H as (es' & w2 & Hl & H).
    unfold ret in H. injection H as <- <-.
    apply match_record_log in Hn. apply IH in Hl. subst w2 w1.
    destruct (is_series n); simpl.
    + now rewrite <- app_assoc.
    + now rewrite app_nil_r.
Qed.

(** X8. A run of [get_results] that returns has requested the results
    page and then the detail page of each series among the result
    containers of the day, in document order, and nothing else. *)
Theorem requests_of_get_results (w w' : log) (s : string) :
  get_results network BeautifulSoup local_day self w = (Ok s, w') ->
  exists soup,
    scrape network BeautifulSoup (url self ++ "/results") "result-con" w
    = (Ok soup, w ++ [(url self ++ "/results")%string]) /\
    w' = (w ++ [(url self ++ "/results")%string])
         ++ map (detail_url self)
              (filter is_series (today_nodes local_day self soup)).
Proof.
  intros H. unfold get_results in H.
  apply bind_Ok in H as (d & w2 & H & Hr).
  unfold ret in Hr. injection Hr as _ Hw. subst w2.
  destruct (bind_Ok _ _ _ _ _ H) as (soup & w1 & Hs & _).
  pose proof (scrape_log network BeautifulSoup
                (url self ++ "/results") "result-con" w) as L.
  rewrite Hs in L. simpl in L. subst w1.
  destruct (match_results_entries _ _ _ _ _ _ _ _ _ Hs H)
    as (es & He & _ & _).
  exists soup. split; [exact Hs|]. exact (entries_log _ _ _ _ He).
Qed.

(** X14. The first retained node whose extraction raises ends
    [get_results] with its exception: the requests made for the nodes
    before it stay made, the records of those nodes are lost, and the
    nodes after it are not looked at. *)
Theorem first_failure_ends_run (w w1 w2 w3 : log) (soup : node)
    (before after : list node) (n : node) (acc : odict MatchRecord)
    (e : exn) :
  scrape network BeautifulSoup (url self ++ "/results") "result-con" w
  = (Ok soup, w1) ->
  find_all_fn (check_match_date local_day self) soup
  = Ok (before ++ n :: after) ->
  collect network BeautifulSoup self [] before w1 = (Ok acc, w2) ->
  match_record network BeautifulSoup self n w2 = (Raise e, w3) ->
  get_results network BeautifulSoup local_day self w = (Raise e, w3).
Proof.
  intros Hs Hf Hc Hn. unfold get_results. apply bind_Raise.
  rewrite (match_results_scraped _ _ _ _ _ _ _ Hs _ Hf).
  rewrite collect_app, (bind_step _ _ _ _ _ Hc). simpl.
  now apply bind_Raise.
Qed.

End Branches.

(** *** The results dictionary and what is printed of it *)

Section Report.

Variable network : log -> string -> result response.
Variable BeautifulSoup : string -> string -> node.
Variable local_day : Z -> result string.
Variable self : CounterScrape.

Lemma today_node_day (n : node) :
  is_today_match local_day self n = true ->
  convert_timestamp local_day (timestamp_of n) = Ok (current_date self).
Proof.
  unfold is_today_match, timestamp_of, getitem.
  destruct (is_result_con n); simpl; [|discriminate].
  destruct (lookup TIMESTAMP (tag_attrs n)) as [ts|]; [|discriminate].
  destruct (convert_timestamp local_day ts) as [day|]; [|discriminate].
  intros H. apply String.eqb_eq in H. now subst.
Qed.

(** X9. Every key of the dictionary that [get_results] builds is a
    timestamp of the captured day, and no key stands twice. *)
Theorem keys_are_of_the_day (w w' : log) (d : odict MatchRecord) :
  match_results network BeautifulSoup local_day self w = (Ok d, w') ->
  NoDup (keys d) /\
  forall k, In k (keys d) ->
            convert_timestamp local_day k = Ok (current_date self).
Proof.
  intros H. split; [exact (match_results_NoDup _ _ _ _ _ _ _ H)|].
  intros k Hk.
  destruct (match_results_Ok _ _ _ _ _ _ _ H) as (soup & w1 & Hs & _ & _).
  destruct (match_results_entries _ _ _ _ _ _ _ _ _ Hs H)
    as (es & _ & Hes & ->).
  unfold odict_of_pairs in Hk. rewrite keys_fold_setitem in Hk.
  apply fold_add_key_In in Hk as [[] | Hk].
  rewrite Hes in Hk. apply in_map_iff in Hk as (n & <- & Hn).
  apply filter_In in Hn as [_ Hn]. now apply today_node_day.
Qed.



Lemma results_dict_of_match_results (w w' : log) (d : odict MatchRecord) :
  match_results network BeautifulSoup local_day self w = (Ok d, w') ->
  results_dict network BeautifulSoup local_day self w = (Ok (to_json d), w').
Proof.
  intros H. unfold results_dict, get_results.
  unfold bind at 1. unfold bind at 1. rewrite H. unfold ret, lift.
  rewrite loads_dumps.
  rewrite as_dict_to_json; [reflexivity|].
  exact (match_results_NoDup _ _ _ _ _ _ _ H).
Qed.


(** X11. When [get_results] raises, [pprint] raises the same exception
    and has printed nothing, not even the line of credit. *)
Theorem pprint_failure (w w' : log) (e : exn) :
  get_results network BeautifulSoup local_day self w = (Raise e, w') ->
  pprint network BeautifulSoup local_day self w = ((Raise e, []), w').
Proof.
  intros H. unfold pprint, results_dict.
  now rewrite (bind_Raise _ _ _ _ _ H).
Qed.

End Report.

Lemma length_spaces (n : nat) : String.length (spaces n) = n.
Proof. induction n as [|n IH]; simpl; [reflexivity | now rewrite IH]. Qed.

Lemma length_format_str (align : alignment) (width : nat) (s : string) :
  String.length (format_str align width s) = Nat.max width (String.length s).
Proof.
  unfold format_str. destruct align;
    rewrite ?length_append, ?length_spaces.
  - lia.
  - lia.
  - assert (Nat.div (width - String.length s) 2 <= width - String.length s)
      by (apply Nat.Div0.div_le_upper_bound; lia).
    lia.
Qed.

(** X12. The line of a match has five columns of 20, 2, 2, 20 and 13
    characters, and a field wider than its column is printed in full:
    the line is as long as its columns, each at its width or at the
    length of its text if that is more, and the six characters between
    them. *)
Theorem record_line_length (r : MatchRecord) :
  format_match
    (JObject (map (fun fv => (fst fv, JString (snd fv))) (items r)))
  = Ok (record_line r) /\
  String.length (record_line r)
  = Nat.max 20 (String.length (team_one r))
    + Nat.max 2 (String.length (team_one_score r))
    + Nat.max 2 (String.length (team_two_score r))
    + Nat.max 20 (String.length (team_two r))
    + Nat.max 13 (String.length (maps r)) + 6.
Proof.
  split; [reflexivity|].
  unfold record_line. rewrite !length_append, !length_format_str.
  simpl String.length. lia.
Qed.

(** *** The characters of the serialized text *)

Lemma all_plain_append (s1 s2 : string) :
  all_plain (s1 ++ s2) = all_plain s1 && all_plain s2.
Proof.
  unfold all_plain. induction s1 as [|c s1 IH]; simpl; [reflexivity|].
  rewrite IH. now rewrite andb_assoc.
Qed.

Lemma escape_char_plain (c : ascii) : all_plain (escape_char c) = true.
Proof. destruct c as [[] [] [] [] [] [] [] []]; reflexivity. Qed.

Lemma escape_plain (s : string) : all_plain (escape s) = true.
Proof.
  induction s as [|c s IH]; [reflexivity|]. simpl.
  now rewrite all_plain_append, escape_char_plain, IH.
Qed.

Lemma newline_indent_plain (level : nat) :
  all_plain (newline_indent level) = true.
Proof.
  unfold newline_indent. change (all_plain (indentation level) = true).
  induction level as [|level IH]; [reflexivity|]. exact IH.
Qed.

Lemma all_plain_String (c : ascii) (s : string) :
  all_plain (String c s) = plain c && all_plain s.
Proof. reflexivity. Qed.

Lemma members_tail_cons (level : nat) (kv : string * json)
    (members : odict json) (tail : string) :
  members_tail level (kv :: members) tail
  = (escape (fst kv)
     ++ String quote
          (String ":"
             (iterencode (S level) (snd kv)
              ++ match members with
                 | [] => newline_indent level ++ String "}" tail
                 | _ :: _ =>
                     String ","
                       (newline_indent (S level)
                        ++ String quote (members_tail level members tail))
                 end)))%string.
Proof. destruct members; reflexivity. Qed.

Lemma members_tail_plain (level : nat) (tail : string)
    (members : odict json) :
  all_plain tail = true ->
  Forall (fun kv => forall l, all_plain (iterencode l (snd kv)) = true)
    members ->
  all_plain (members_tail level members tail) = true.
Proof.
  intros Ht H. induction H as [|kv members Hkv Hm IH]; [exact Ht|].
  rewrite members_tail_cons, all_plain_append, escape_plain.
  rewrite !all_plain_String, all_plain_append, (Hkv (S level)).
  destruct members as [|kv' members].
  - rewrite all_plain_append, newline_indent_plain, all_plain_String, Ht.
    reflexivity.
  - rewrite all_plain_String, all_plain_append, newline_indent_plain.
    rewrite all_plain_String, IH. reflexivity.
Qed.

Lemma iterencode_plain (v : json) :
  forall level, all_plain (iterencode level v) = true.
Proof.
  induction v as [s | members IH] using json_ind'; intros level.
  - unfold iterencode, encode_basestring_ascii.
    rewrite all_plain_String, all_plain_append, escape_plain. reflexivity.
  - destruct members as [|kv members]; [reflexivity|].
    rewrite <- (append_nil_r (iterencode level (JObject (kv :: members)))).
    rewrite iterencode_object.
    rewrite all_plain_String, all_plain_append, newline_indent_plain.
    rewrite all_plain_String, members_tail_plain; [reflexivity.. | exact IH].
Qed.

Section Text.

Variable network : log -> string -> result response.
Variable BeautifulSoup : string -> string -> node.
Variable local_day : Z -> result string.
Variable self : CounterScrape.

(** X13. The text that [get_results] returns is made of printable ASCII
    characters and line feeds only, whatever characters the page holds:
    every other character of a name arrives escaped. *)
Theorem get_results_plain (w w' : log) (s : string) :
  get_results network BeautifulSoup local_day self w = (Ok s, w') ->
  all_plain s = true.
Proof.
  intros H. unfold get_results in H.
  apply bind_Ok in H as (d & w1 & _ & H).
  unfold ret in H. injection H as <- _. apply iterencode_plain.
Qed.

End Text.

(** *** Pages on which the filter returns *)

Section Dated.

Variable network : log -> string -> result response.
Variable BeautifulSoup : string -> string -> node.
Variable local_day : Z -> result string.
Variable self : CounterScrape.

Lemma check_match_date_dated (n : node) :
  (is_result_con n = true -> is_dated local_day n = true) ->
  check_match_date local_day self n = Ok (is_today_match local_day self n).
Proof.
  unfold check_match_date, is_today_match, is_dated, getitem,
    convert_timestamp, int, TIMESTAMP.
  destruct (is_result_con n); [|reflexivity].
  intros H. specialize (H eq_refl). simpl.
  destruct (lookup "data-zonedgrouping-entry-unix" (tag_attrs n)) as [ts|];
    [|discriminate].
  simpl. destruct (int_literal ts) as [z|]; [|discriminate].
  simpl. now destruct (local_day z).
Qed.

Lemma find_all_matching_dated (l : list node) :
  (forall n, In n l -> is_result_con n = true ->
             is_dated local_day n = true) ->
  find_all_matching (check_match_date local_day self) l
  = Ok (filter (is_today_match local_day self) l).
Proof.
  induction l as [|n l IH]; intros H; [reflexivity|].
  simpl. rewrite IH by (intros n' Hn'; apply H; now right).
  destruct (is_tag n) eqn:Htag.
  - rewrite check_match_date_dated by (apply H; now left). simpl.
    now destruct (is_today_match local_day self n).
  - assert (E : is_today_match local_day self n = false).
    { unfold is_today_match.
      destruct (is_result_con n) eqn:Hr; [|reflexivity].
      apply is_result_con_is_tag in Hr. congruence. }
    now rewrite E.
Qed.

(** X15. On a page whose result containers all carry a timestamp that
    is an integer literal the clock has a day for, the filter of
    [get_results] raises nothing and retains exactly the result
    containers of the captured day, in document order. *)
Theorem filter_returns (soup : node) :
  (forall tag, In tag (descendants soup) -> is_result_con tag = true ->
               is_dated local_day tag = true) ->
  find_all_fn (check_match_date local_day self) soup
  = Ok (today_nodes local_day self soup).
Proof. intros H. now apply find_all_matching_dated. Qed.

(** X16. A page that is served and has no match of the captured day
    gives the text of the empty dictionary after its one request, and
    [pprint] then prints the line that there are no results and the line
    of credit. *)
Theorem no_match_of_the_day (w w1 : log) (soup : node) :
  scrape network BeautifulSoup (url self ++ "/results") "result-con" w
  = (Ok soup, w1) ->
  (forall tag, In tag (descendants soup) -> is_result_con tag = true ->
               is_dated local_day tag = true) ->
  today_nodes local_day self soup = [] ->
  get_results network BeautifulSoup local_day self w = (Ok "{}", w1) /\
  pprint network BeautifulSoup local_day self w
  = ((Ok tt, [no_results_line self; powered_line]), w1).
Proof.
  intros Hs Hd Ht.
  assert (Hm : match_results network BeautifulSoup local_day self w
               = (Ok [], w1)).
  { rewrite (match_results_scraped _ _ _ _ _ _ _ Hs []); [reflexivity|].
    rewrite <- Ht. now apply find_all_matching_dated. }
  split.
  - unfold get_results. now rewrite (bind_step _ _ _ _ _ Hm).
  - unfold pprint.
    now rewrite (results_dict_of_match_results _ _ _ _ _ _ _ Hm).
Qed.

End Dated.

(** *** More of the program on the concrete site *)

Lemma check_match_date_result_con_witness :
  is_result_con Fixture.bad_stamp = true /\
  check_match_date Fixture.utc_day Fixture.self Fixture.bad_stamp
  = Raise (ValueError "soon") /\
  is_result_con Fixture.no_stamp = true /\
  check_match_date Fixture.utc_day Fixture.self Fixture.no_stamp
  = Raise (KeyError TIMESTAMP).
Proof.
  assert (H1 : is_result_con Fixture.bad_stamp = true) by reflexivity.
  assert (H2 : is_result_con Fixture.no_stamp = true) by reflexivity.
  split; [exact H1|]. split.
  - exact (proj1 (proj2 (check_match_date_result_con Fixture.utc_day
                           Fixture.self Fixture.bad_stamp H1))
             "soon" eq_refl eq_refl).
  - split; [exact H2|].
    exact (proj1 (check_match_date_result_con Fixture.utc_day
                    Fixture.self Fixture.no_stamp H2) eq_refl).
Defined.

Lemma malformed_timestamp_aborts_witness :
  In Fixture.bad_stamp
    (descendants (Fixture.document Fixture.malformed_page)) /\
  int_literal (timestamp_of Fixture.bad_stamp) = None /\
  exists e,
    match_results (Fixture.network Fixture.malformed_page)
      (Fixture.BeautifulSoup Fixture.malformed_page) Fixture.utc_day
      Fixture.self []
    = (Raise e, [Fixture.results_url]) /\
    get_results (Fixture.network Fixture.malformed_page)
      (Fixture.BeautifulSoup Fixture.malformed_page) Fixture.utc_day
      Fixture.self []
    = (Raise e, [Fixture.results_url]).
Proof.
  assert (Hs : scrape (Fixture.network Fixture.malformed_page)
                 (Fixture.BeautifulSoup Fixture.malformed_page)
                 (url Fixture.self ++ "/results") "result-con" []
               = (Ok (Fixture.document Fixture.malformed_page),
                  [Fixture.results_url]))
    by (vm_compute; reflexivity).
  assert (Hin : In Fixture.bad_stamp
                  (descendants (Fixture.document Fixture.malformed_page))).
  { apply in_flat_map. exists Fixture.bad_stamp.
    split; [right; right; now left | now left]. }
  assert (Hi : int_literal (timestamp_of Fixture.bad_stamp) = None)
    by reflexivity.
  split; [exact Hin|]. split; [exact Hi|].
  exact (malformed_timestamp_aborts (Fixture.network Fixture.malformed_page)
           (Fixture.BeautifulSoup Fixture.malformed_page) Fixture.utc_day
           Fixture.self [] [Fixture.results_url]
           (Fixture.document Fixture.malformed_page) Fixture.bad_stamp
           Hs Hin eq_refl (or_intror Hi)).
Defined.

Lemma results_page_http_error_witness :
  get_results (Fixture.serve []) (Fixture.parse []) Fixture.utc_day
    Fixture.self []
  = (Raise (HTTPError 404), [Fixture.results_url]) /\
  results_dict (Fixture.serve []) (Fixture.parse []) Fixture.utc_day
    Fixture.self []
  = (Raise (HTTPError 404), [Fixture.results_url]).
Proof.
  assert (Hst : (400 <= status_code Fixture.not_found < 600)%Z)
    by (simpl; lia).
  exact (results_page_http_error (Fixture.serve []) (Fixture.parse [])
           Fixture.utc_day Fixture.self [] Fixture.not_found eq_refl Hst).
Defined.

Lemma missing_element_raises_witness :
  select_one "team1" Fixture.no_team = None /\
  match_record (Fixture.network []) (Fixture.BeautifulSoup []) Fixture.self
    Fixture.no_team []
  = (Raise AttributeError, []).
Proof.
  assert (H : select_one "team1" Fixture.no_team = None) by reflexivity.
  split; [exact H|].
  exact (missing_element_raises (Fixture.network [])
           (Fixture.BeautifulSoup []) Fixture.self Fixture.no_team []
           "1500018000000" eq_refl (or_introl H)).
Defined.

Lemma blank_score_raises_witness :
  text_of false (select_one "result-score" Fixture.no_score) = Ok " " /\
  match_record (Fixture.network []) (Fixture.BeautifulSoup []) Fixture.self
    Fixture.no_score []
  = (Raise IndexError, []).
Proof.
  split; [reflexivity|].
  exact (blank_score_raises (Fixture.network []) (Fixture.BeautifulSoup [])
           Fixture.self Fixture.no_score [] "1500014400000" "Gambit"
           "Immortals" " " eq_refl eq_refl eq_refl eq_refl eq_refl).
Defined.

Lemma known_code_resolves_witness :
  lookup "mrg" MAPS = Some "Mirage" /\
  match_record (Fixture.network []) (Fixture.BeautifulSoup []) Fixture.self
    Fixture.astralis []
  = (Ok ("1500000000000", Fixture.astralis_record), []).
Proof.
  split; [reflexivity|].
  exact (known_code_resolves (Fixture.network []) (Fixture.BeautifulSoup [])
           Fixture.self Fixture.astralis [] "1500000000000" "Astralis"
           "NaVi" "16 : 9" "16" "9" "ESL Pro League" "mrg" "Mirage"
           eq_refl eq_refl eq_refl eq_refl eq_refl eq_refl eq_refl eq_refl
           eq_refl eq_refl).
Defined.

Lemma series_errors_before_fetch_witness :
  int_literal "W" = None /\
  match_record (Fixture.network []) (Fixture.BeautifulSoup []) Fixture.self
    Fixture.series_forfeit [Fixture.results_url]
  = (Raise (ValueError "W"), [Fixture.results_url]) /\
  select_one "a-reset" Fixture.series_no_link = None /\
  match_record (Fixture.network []) (Fixture.BeautifulSoup []) Fixture.self
    Fixture.series_no_link [Fixture.results_url]
  = (Raise TypeError, [Fixture.results_url]).
Proof.
  assert (Hi : int_literal "W" = None) by reflexivity.
  assert (Hl : select_one "a-reset" Fixture.series_no_link = None)
    by reflexivity.
  split; [exact Hi|]. split.
  - exact (proj1 (proj2 (proj2
             (series_errors_before_fetch (Fixture.network [])
                (Fixture.BeautifulSoup []) Fixture.self
                Fixture.series_forfeit [Fixture.results_url]
                "1500021600000" "BIG" "OpTic" "W - FF" "W" "FF"
                "ESL One Cologne" "bo3"
                eq_refl eq_refl eq_refl eq_refl eq_refl eq_refl eq_refl
                eq_refl eq_refl)))
             "/matches/10/big-vs-optic" eq_refl Hi).
  - split; [exact Hl|].
    exact (proj1
             (series_errors_before_fetch (Fixture.network [])
                (Fixture.BeautifulSoup []) Fixture.self
                Fixture.series_no_link [Fixture.results_url]
                "1500025200000" "Space Soldiers" "HellRaisers" "2 - 1"
                "2" "1" "ESEA MDL" "bo3"
                eq_refl eq_refl eq_refl eq_refl eq_refl eq_refl eq_refl
                eq_refl eq_refl) Hl).
Defined.

Lemma requests_of_get_results_witness :
  get_results (Fixture.network Fixture.series_page)
    (Fixture.BeautifulSoup Fixture.series_page) Fixture.utc_day Fixture.self
    []
  = (Ok (dumps (to_json [("1500000000000", Fixture.astralis_record);
                         ("1500003600000", Fixture.sk_record);
                         ("1499990400000", Fixture.fnatic_record)])),
     [Fixture.results_url; Fixture.sk_url]) /\
  [Fixture.results_url; Fixture.sk_url]
  = ([] ++ [Fixture.results_url])
    ++ map (detail_url Fixture.self)
         (filter is_series
            (today_nodes Fixture.utc_day Fixture.self
               (Fixture.document Fixture.series_page))).
Proof.
  assert (Hrun : get_results (Fixture.network Fixture.series_page)
                   (Fixture.BeautifulSoup Fixture.series_page)
                   Fixture.utc_day Fixture.self []
                 = (Ok (dumps
                          (to_json
                             [("1500000000000", Fixture.astralis_record);
                              ("1500003600000", Fixture.sk_record);
                              ("1499990400000", Fixture.fnatic_record)])),
                    [Fixture.results_url; Fixture.sk_url]))
    by (vm_compute; reflexivity).
  split; [exact Hrun|].
  destruct (requests_of_get_results (Fixture.network Fixture.series_page)
              (Fixture.BeautifulSoup Fixture.series_page) Fixture.utc_day
              Fixture.self [] [Fixture.results_url; Fixture.sk_url]
              (dumps (to_json [("1500000000000", Fixture.astralis_record);
                               ("1500003600000", Fixture.sk_record);
                               ("1499990400000", Fixture.fnatic_record)]))
              Hrun) as (soup & Hs & Hw).
  vm_compute in Hs. injection Hs as <-. exact Hw.
Defined.

Lemma keys_are_of_the_day_witness :
  match_results (Fixture.network Fixture.day_page)
    (Fixture.BeautifulSoup Fixture.day_page) Fixture.utc_day Fixture.self []
  = (Ok [("1500000000000", Fixture.astralis_record);
         ("1499990400000", Fixture.fnatic_record)], [Fixture.results_url]) /\
  convert_timestamp Fixture.utc_day "1499990400000"
  = Ok (current_date Fixture.self).
Proof.
  assert (Hrun : match_results (Fixture.network Fixture.day_page)
                   (Fixture.BeautifulSoup Fixture.day_page)
                   Fixture.utc_day Fixture.self []
                 = (Ok [("1500000000000", Fixture.astralis_record);
                        ("1499990400000", Fixture.fnatic_record)],
                    [Fixture.results_url]))
    by (vm_compute; reflexivity).
  split; [exact Hrun|].
  exact (proj2 (keys_are_of_the_day (Fixture.network Fixture.day_page)
                  (Fixture.BeautifulSoup Fixture.day_page) Fixture.utc_day
                  Fixture.self [] [Fixture.results_url]
                  [("1500000000000", Fixture.astralis_record);
                   ("1499990400000", Fixture.fnatic_record)] Hrun)
           "1499990400000" (or_intror (or_introl eq_refl))).
Defined.


Lemma pprint_failure_witness :
  pprint (Fixture.network Fixture.unknown_page)
    (Fixture.BeautifulSoup Fixture.unknown_page) Fixture.utc_day Fixture.self
    []
  = ((Raise (KeyError "d2"), []), [Fixture.results_url]).
Proof.
  assert (Hrun : get_results (Fixture.network Fixture.unknown_page)
                   (Fixture.BeautifulSoup Fixture.unknown_page)
                   Fixture.utc_day Fixture.self []
                 = (Raise (KeyError "d2"), [Fixture.results_url]))
    by (vm_compute; reflexivity).
  exact (pprint_failure (Fixture.network Fixture.unknown_page)
           (Fixture.BeautifulSoup Fixture.unknown_page) Fixture.utc_day
           Fixture.self [] [Fixture.results_url] (KeyError "d2") Hrun).
Defined.

Lemma get_results_plain_witness :
  all_plain
    (dumps (to_json [("1500000000000", Fixture.astralis_record);
                     ("1499990400000", Fixture.fnatic_record)]))
  = true.
Proof.
  assert (Hrun : get_results (Fixture.network Fixture.day_page)
                   (Fixture.BeautifulSoup Fixture.day_page)
                   Fixture.utc_day Fixture.self []
                 = (Ok (dumps
                          (to_json
                             [("1500000000000", Fixture.astralis_record);
                              ("1499990400000", Fixture.fnatic_record)])),
                    [Fixture.results_url]))
    by (vm_compute; reflexivity).
  exact (get_results_plain (Fixture.network Fixture.day_page)
           (Fixture.BeautifulSoup Fixture.day_page) Fixture.utc_day
           Fixture.self [] [Fixture.results_url] _ Hrun).
Defined.

Lemma first_failure_ends_run_witness :
  get_results (Fixture.network Fixture.blank_page)
    (Fixture.BeautifulSoup Fixture.blank_page) Fixture.utc_day Fixture.self
    []
  = (Raise IndexError, [Fixture.results_url; Fixture.sk_url]).
Proof.
  assert (Hs : scrape (Fixture.network Fixture.blank_page)
                 (Fixture.BeautifulSoup Fixture.blank_page)
                 (url Fixture.self ++ "/results") "result-con" []
               = (Ok (Fixture.document Fixture.blank_page),
                  [Fixture.results_url]))
    by (vm_compute; reflexivity).
  assert (Hf : find_all_fn (check_match_date Fixture.utc_day Fixture.self)
                 (Fixture.document Fixture.blank_page)
               = Ok ([Fixture.astralis; Fixture.sk]
                     ++ Fixture.no_score :: [Fixture.fnatic]))
    by (vm_compute; reflexivity).
  assert (Hc : collect (Fixture.network Fixture.blank_page)
                 (Fixture.BeautifulSoup Fixture.blank_page) Fixture.self []
                 [Fixture.astralis; Fixture.sk] [Fixture.results_url]
               = (Ok [("1500000000000", Fixture.astralis_record);
                      ("1500003600000", Fixture.sk_record)],
                  [Fixture.results_url; Fixture.sk_url]))
    by (vm_compute; reflexivity).
  assert (Hn : match_record (Fixture.network Fixture.blank_page)
                 (Fixture.BeautifulSoup Fixture.blank_page) Fixture.self
                 Fixture.no_score [Fixture.results_url; Fixture.sk_url]
               = (Raise IndexError, [Fixture.results_url; Fixture.sk_url]))
    by (vm_compute; reflexivity).
  exact (first_failure_ends_run (Fixture.network Fixture.blank_page)
           (Fixture.BeautifulSoup Fixture.blank_page) Fixture.utc_day
           Fixture.self [] [Fixture.results_url]
           [Fixture.results_url; Fixture.sk_url]
           [Fixture.results_url; Fixture.sk_url]
           (Fixture.document Fixture.blank_page)
           [Fixture.astralis; Fixture.sk] [Fixture.fnatic] Fixture.no_score
           _ IndexError Hs Hf Hc Hn).
Defined.

Lemma filter_returns_witness :
  find_all_fn (check_match_date Fixture.utc_day Fixture.self)
    (Fixture.document Fixture.day_page)
  = Ok [Fixture.astralis; Fixture.fnatic].
Proof.
  assert (Hd : forall tag,
             In tag (descendants (Fixture.document Fixture.day_page)) ->
             is_result_con tag = true ->
             is_dated Fixture.utc_day tag = true).
  { intros tag Hin.
    vm_compute in Hin.
    repeat (destruct Hin as [<- | Hin];
            [vm_compute; intros H; (exact H || reflexivity)|]).
    contradiction. }
  exact (filter_returns Fixture.utc_day Fixture.self
           (Fixture.document Fixture.day_page) Hd).
Defined.

Lemma no_match_of_the_day_witness :
  get_results (Fixture.network [Fixture.yesterday])
    (Fixture.BeautifulSoup [Fixture.yesterday]) Fixture.utc_day Fixture.self
    []
  = (Ok "{}", [Fixture.results_url]) /\
  pprint (Fixture.network [Fixture.yesterday])
    (Fixture.BeautifulSoup [Fixture.yesterday]) Fixture.utc_day Fixture.self
    []
  = ((Ok tt, [no_results_line Fixture.self; powered_line]),
     [Fixture.results_url]).
Proof.
  assert (Hs : scrape (Fixture.network [Fixture.yesterday])
                 (Fixture.BeautifulSoup [Fixture.yesterday])
                 (url Fixture.self ++ "/results") "result-con" []
               = (Ok (Fixture.document [Fixture.yesterday]),
                  [Fixture.results_url]))
    by (vm_compute; reflexivity).
  assert (Hd : forall tag,
             In tag (descendants (Fixture.document [Fixture.yesterday])) ->
             is_result_con tag = true ->
             is_dated Fixture.utc_day tag = true).
  { intros tag Hin.
    vm_compute in Hin.
    repeat (destruct Hin as [<- | Hin];
            [vm_compute; intros H; (exact H || reflexivity)|]).
    contradiction. }
  assert (Ht : today_nodes Fixture.utc_day Fixture.self
                 (Fixture.document [Fixture.yesterday]) = [])
    by (vm_compute; reflexivity).
  exact (no_match_of_the_day (Fixture.network [Fixture.yesterday])
           (Fixture.BeautifulSoup [Fixture.yesterday]) Fixture.utc_day
           Fixture.self [] [Fixture.results_url]
           (Fixture.document [Fixture.yesterday]) Hs Hd Ht).
Defined.
